(** * HR Pro: the sign-in / sign-up controller and the profile view

    A shallow embedding of the two React components of the repository,
    [components/Auth.tsx] and the profile view ([ProfileAgent]), together
    with a model of the two hosted services they talk to (the identity
    service and the document store behind the [firebase] module).

    The components are event handlers written as [async] functions with
    [try]/[catch]/[finally] and early [return]; they are embedded in a
    state monad with JavaScript completions ([Normal], [Returned],
    [Thrown]).  Every request to a service is logged in a trace, so that
    "which calls are made, and in which order" is a statement about a
    list. *)

From stdpp Require Import base strings gmap list.

Open Scope string_scope.
Open Scope list_scope.
Open Scope nat_scope.

(** ** JavaScript values used by the components *)

(** Truthiness of a string: only the empty string is falsy. *)
Definition truthy (s : string) : bool := bool_decide (s ≠ "").

(** [a || b] for a string [a]. *)
Definition str_or (a b : string) : string := if truthy a then a else b.

(** [a || b] for [a : string | null]. *)
Definition null_or (a : option string) (b : string) : string :=
  match a with
  | Some s => str_or s b
  | None => b
  end.

(** What a rejected promise carries.  The services reject with a
    [FirebaseError] that has a [code]; [TypeError] stands for the
    JavaScript error raised when a [null] is used as an object. *)
Inductive exn :=
| FirebaseError (code : string)
| TypeError.

(** [err.code] ([None] is [undefined]). *)
Definition err_code (e : exn) : option string :=
  match e with
  | FirebaseError c => Some c
  | TypeError => None
  end.

(** [err.code === c] *)
Definition code_is (e : exn) (c : string) : bool :=
  bool_decide (err_code e = Some c).

(** ** Completions and the handler monad *)

Inductive Completion (A : Type) :=
| Normal (a : A)
| Returned
| Thrown (e : exn).
Arguments Normal {A} a.
Arguments Returned {A}.
Arguments Thrown {A} e.

(** A computation over a state [S] (component state and the world). *)
Definition M (S A : Type) : Type := S → Completion A * S.

Definition ret {S A} (a : A) : M S A := λ s, (Normal a, s).

Definition bind {S A B} (m : M S A) (k : A → M S B) : M S B :=
  λ s, match m s with
       | (Normal a, s') => k a s'
       | (Returned, s') => (Returned, s')
       | (Thrown e, s') => (Thrown e, s')
       end.

#[global] Instance M_ret {S} : MRet (M S) := λ A, ret.
#[global] Instance M_bind {S} : MBind (M S) := λ A B k m, bind m k.

(** [throw e] *)
Definition throw {S A} (e : exn) : M S A := λ s, (Thrown e, s).

(** [return;] in a function that returns nothing. *)
Definition return_ {S} : M S unit := λ s, (Returned, s).

Definition skip {S} : M S unit := ret tt.

Definition modify {S} (f : S → S) : M S unit := λ s, (Normal tt, f s).

Definition when {S} (b : bool) (m : M S unit) : M S unit :=
  if b then m else skip.

(** [try { body } catch (err) { handler }]: only a throw is caught. *)
Definition try_catch {S} (body : M S unit) (handler : exn → M S unit) : M S unit :=
  λ s, match body s with
       | (Thrown e, s') => handler e s'
       | r => r
       end.

(** [try { body } finally { fin }]: [fin] runs after every completion of
    [body], and an abrupt completion of [fin] replaces that of [body]. *)
Definition try_finally {S} (body fin : M S unit) : M S unit :=
  λ s, match body s with
       | (c, s') =>
           match fin s' with
           | (Normal _, s'') => (c, s'')
           | r => r
           end
       end.

(** The boundary of a function: a [return] ends the call normally. *)
Definition fn {S} (body : M S unit) : M S unit :=
  λ s, match body s with
       | (Returned, s') => (Normal tt, s')
       | r => r
       end.

(** Running an event handler; what is left is the state after it. *)
Definition run {S} (h : M S unit) (s : S) : S := snd (h s).

(** ** The hosted services *)

Module Firebase.

(** The account object handed out by the identity service ([User] of
    [firebase/auth]).  Accounts of the e-mail/password provider always
    carry an e-mail address. *)
Record User := mkUser {
  uid : string;
  user_email : string;
  displayName : option string;
  emailVerified : bool;
}.

(** A document of the collection ["users"]: field name to value. *)
Abbreviation Doc := (gmap string string).

(** The requests the components send. *)
Inductive Call :=
| SignInWithEmailAndPassword (email password : string)
| CreateUserWithEmailAndPassword (email password : string)
| UpdateProfile (id displayName : string)
| SendEmailVerification (id : string)
| SignOut
| SendPasswordResetEmail (email : string)
| DeleteUser (id : string)
| GetDoc (id : string)
| SetDoc (id : string) (data : Doc)
| UpdateDoc (id : string) (data : Doc)
| DeleteDoc (id : string).

(** Everything outside the component.

    - [currentUser] is [auth.currentUser], the active session;
    - [users] is the collection ["users"] of the document store;
    - [authenticate] and [register] are the identity service's answers to
      a sign-in and to an account creation (an error code or the account);
    - [now] is what [new Date().toISOString()] gives;
    - [confirmAnswer] is the user's answer in [window.confirm];
    - [faults] scripts the transport: its head decides whether the next
      request is rejected (with that error code) before it is served;
    - [trace] lists the requests sent so far, oldest first. *)
Record World := mkWorld {
  currentUser : option User;
  users : gmap string Doc;
  authenticate : string → string → string + User;
  register : string → string → string + User;
  now : string;
  confirmAnswer : bool;
  faults : list (option string);
  trace : list Call;
}.

Definition set_currentUser (u : option User) (w : World) : World :=
  mkWorld u (users w) (authenticate w) (register w) (now w)
          (confirmAnswer w) (faults w) (trace w).

Definition set_users (d : gmap string Doc) (w : World) : World :=
  mkWorld (currentUser w) d (authenticate w) (register w) (now w)
          (confirmAnswer w) (faults w) (trace w).

Definition set_faults (f : list (option string)) (w : World) : World :=
  mkWorld (currentUser w) (users w) (authenticate w) (register w) (now w)
          (confirmAnswer w) f (trace w).

Definition log (c : Call) (w : World) : World :=
  mkWorld (currentUser w) (users w) (authenticate w) (register w) (now w)
          (confirmAnswer w) (faults w) (trace w ++ [c]).

(** The error code with which the transport rejects the [i]-th request
    from now, if it does. *)
Definition fault (i : nat) (w : World) : option string :=
  default None (faults w !! i).

(** The world once request [c] has left the component. *)
Definition sent (c : Call) (w : World) : World :=
  set_faults (tail (faults w)) (log c w).

(** One awaited request: it is logged, the transport may reject it, and
    otherwise the service serves it. *)
Definition request {V A} (c : Call) (serve : World → exn + A * World)
  : M (V * World) A :=
  λ '(v, w),
    let w1 := log c w in
    match faults w1 with
    | Some code :: rest => (Thrown (FirebaseError code), (v, set_faults rest w1))
    | _ =>
        let w2 := set_faults (tail (faults w1)) w1 in
        match serve w2 with
        | inl e => (Thrown e, (v, w2))
        | inr (a, w3) => (Normal a, (v, w3))
        end
    end.

(** *** Identity service *)

Definition signInWithEmailAndPassword {V} (email password : string)
  : M (V * World) User :=
  request (SignInWithEmailAndPassword email password)
    (λ w, match authenticate w email password with
          | inl code => inl (FirebaseError code)
          | inr u => inr (u, set_currentUser (Some u) w)
          end).

Definition createUserWithEmailAndPassword {V} (email password : string)
  : M (V * World) User :=
  request (CreateUserWithEmailAndPassword email password)
    (λ w, match register w email password with
          | inl code => inl (FirebaseError code)
          | inr u => inr (u, set_currentUser (Some u) w)
          end).

Definition with_displayName (n : string) (u : User) : User :=
  mkUser (uid u) (user_email u) (Some n) (emailVerified u).

Definition updateProfile {V} (u : User) (n : string) : M (V * World) unit :=
  request (UpdateProfile (uid u) n)
    (λ w, inr (tt, set_currentUser (with_displayName n <$> currentUser w) w)).

Definition sendEmailVerification {V} (u : User) : M (V * World) unit :=
  request (SendEmailVerification (uid u)) (λ w, inr (tt, w)).

Definition signOut {V} : M (V * World) unit :=
  request SignOut (λ w, inr (tt, set_currentUser None w)).

Definition sendPasswordResetEmail {V} (email : string) : M (V * World) unit :=
  request (SendPasswordResetEmail email) (λ w, inr (tt, w)).

Definition deleteUser {V} (u : User) : M (V * World) unit :=
  request (DeleteUser (uid u)) (λ w, inr (tt, set_currentUser None w)).

(** *** Document store, collection ["users"] *)

(** [getDoc]: the snapshot; [None] is a snapshot whose [exists()] is false. *)
Definition getDoc {V} (id : string) : M (V * World) (option Doc) :=
  request (GetDoc id) (λ w, inr (users w !! id, w)).

(** [setDoc] replaces the whole document. *)
Definition setDoc {V} (id : string) (data : Doc) : M (V * World) unit :=
  request (SetDoc id data) (λ w, inr (tt, set_users (<[id := data]> (users w)) w)).

(** [updateDoc] overwrites the given fields of an existing document and is
    rejected with [not-found] when there is none. *)
Definition updateDoc {V} (id : string) (data : Doc) : M (V * World) unit :=
  request (UpdateDoc id data)
    (λ w, match users w !! id with
          | Some d => inr (tt, set_users (<[id := data ∪ d]> (users w)) w)
          | None => inl (FirebaseError "not-found")
          end).

Definition deleteDoc {V} (id : string) : M (V * World) unit :=
  request (DeleteDoc id) (λ w, inr (tt, set_users (delete id (users w)) w)).

(** Reading [auth.currentUser] and the clock; [window.confirm]. *)
Definition getCurrentUser {V} : M (V * World) (option User) :=
  λ s, (Normal (currentUser (snd s)), s).

Definition newDateISO {V} : M (V * World) string :=
  λ s, (Normal (now (snd s)), s).

Definition confirm {V} (message : string) : M (V * World) bool :=
  λ s, (Normal (confirmAnswer (snd s)), s).

(** Two properties of a computation with respect to the component state:
    [quiet m] when [m] never changes it, [stable m] when [m] leaves it as
    it found it unless it completes normally. *)
Definition quiet {V A} (m : M (V * World) A) : Prop :=
  ∀ v w, fst (snd (m (v, w))) = v.

Definition stable {V A} (m : M (V * World) A) : Prop :=
  ∀ v w, match m (v, w) with
         | (Normal _, _) => True
         | (_, s') => fst s' = v
         end.

End Firebase.

(** ** [components/Auth.tsx] *)

Module Auth.
Import Firebase.

(** The [useState] cells of the component. *)
Record State := mkState {
  isLogin : bool;
  isForgotPassword : bool;
  resetSuccess : bool;
  email : string;
  password : string;
  confirmPassword : string;
  name : string;
  photoPreview : option string;
  photoFileName : string;
  error : string;
  loading : bool;
  verificationPending : bool;
}.

Definition initial : State :=
  mkState true false false "" "" "" "" None "" "" false false.

Definition with_error (x : string) (v : State) : State :=
  mkState (isLogin v) (isForgotPassword v) (resetSuccess v) (email v)
          (password v) (confirmPassword v) (name v) (photoPreview v)
          (photoFileName v) x (loading v) (verificationPending v).

Definition with_loading (x : bool) (v : State) : State :=
  mkState (isLogin v) (isForgotPassword v) (resetSuccess v) (email v)
          (password v) (confirmPassword v) (name v) (photoPreview v)
          (photoFileName v) (error v) x (verificationPending v).

Definition with_resetSuccess (x : bool) (v : State) : State :=
  mkState (isLogin v) (isForgotPassword v) x (email v)
          (password v) (confirmPassword v) (name v) (photoPreview v)
          (photoFileName v) (error v) (loading v) (verificationPending v).

Definition with_verificationPending (x : bool) (v : State) : State :=
  mkState (isLogin v) (isForgotPassword v) (resetSuccess v) (email v)
          (password v) (confirmPassword v) (name v) (photoPreview v)
          (photoFileName v) (error v) (loading v) x.

Abbreviation Act := (M (State * World) unit).

Definition setState (f : State → State) : Act := modify (prod_map f id).

Definition setError (x : string) : Act := setState (with_error x).
Definition setLoading (x : bool) : Act := setState (with_loading x).
Definition setResetSuccess (x : bool) : Act := setState (with_resetSuccess x).
Definition setVerificationPending (x : bool) : Act :=
  setState (with_verificationPending x).

(** Which screen is rendered depends on these three cells (and, on the
    forgot-password screen, on [resetSuccess]). *)
Definition screen (v : State) : bool * bool * bool * bool :=
  (verificationPending v, isForgotPassword v, resetSuccess v, isLogin v).

(** The three [return] branches of the component body. *)
Inductive Screen :=
| VerificationSent
| ResetLinkSent
| ForgotPasswordForm
| SignInForm
| SignUpForm.

Definition render (v : State) : Screen :=
  if verificationPending v then VerificationSent
  else if isForgotPassword v then
    (if resetSuccess v then ResetLinkSent else ForgotPasswordForm)
  else if isLogin v then SignInForm
  else SignUpForm.

(** *** [handleResetPassword]

    The handler is a closure over the cells of the render it was created
    in; [r] is that render.  [e.preventDefault()] and [console.error]
    have no effect on the state. *)
Definition resetError (err : exn) : Act :=
  if code_is err "auth/user-not-found" then
    setError "No user found with this email."
  else if code_is err "auth/invalid-email" then
    setError "Invalid email address format."
  else
    setError "Failed to send reset link. Try again later.".

Definition handleResetPassword (r : State) : Act :=
  fn (setError "";;
      setLoading true;;
      when (negb (truthy (email r)))
        (setError "Please enter your email address.";;
         setLoading false;;
         return_);;
      try_finally
        (try_catch
           (sendPasswordResetEmail (email r);;
            setResetSuccess true)
           resetError)
        (setLoading false)).

(** *** [handleSubmit] *)

(** The document written at sign-in when the account has none. *)
Definition signInProfile (u : User) (createdAt : string) : Doc :=
  {[ "name" := null_or (displayName u) "User";
     "email" := user_email u;
     "photoFileName" := "";
     "createdAt" := createdAt ]}.

(** The document written at sign-up. *)
Definition signUpProfile (r : State) (createdAt : string) : Doc :=
  {[ "name" := name r;
     "email" := email r;
     "photoFileName" := str_or (photoFileName r) "";
     "photoBase64" := null_or (photoPreview r) "";
     "createdAt" := createdAt ]}.

Definition signInError (err : exn) : Act :=
  if code_is err "auth/invalid-credential"
     || code_is err "auth/user-not-found"
     || code_is err "auth/wrong-password" then
    setError "Password or Email Incorrect"
  else if code_is err "auth/too-many-requests" then
    setError "Too many attempts. Please try again later."
  else
    setError "Failed to sign in. Please check your connection.".

Definition signUpError (err : exn) : Act :=
  if code_is err "auth/email-already-in-use" then
    setError "User already exists. Sign in?"
  else if code_is err "auth/weak-password" then
    setError "Password should be at least 6 characters."
  else
    setError "Failed to create account.".

(** The body of the inner [try] of the sign-in branch. *)
Definition signInBody (r : State) : Act :=
  user ← signInWithEmailAndPassword (email r) (password r);
  userDoc ← getDoc (uid user);
  when (negb (bool_decide (is_Some userDoc)))
    (createdAt ← newDateISO;
     setDoc (uid user) (signInProfile user createdAt));;
  if negb (emailVerified user) then
    try_catch (sendEmailVerification user) (λ _, skip);;
    signOut;;
    setVerificationPending true
  else
    skip.

Definition signIn (r : State) : Act :=
  try_catch (signInBody r) signInError.

(** The body of the inner [try] of the sign-up branch. *)
Definition signUpBody (r : State) : Act :=
  user ← createUserWithEmailAndPassword (email r) (password r);
  when (truthy (name r)) (updateProfile user (name r));;
  createdAt ← newDateISO;
  setDoc (uid user) (signUpProfile r createdAt);;
  sendEmailVerification user;;
  signOut;;
  setVerificationPending true.

Definition signUp (r : State) : Act :=
  when (bool_decide (password r ≠ confirmPassword r))
    (setError "Passwords do not match";;
     setLoading false;;
     return_);;
  try_catch (signUpBody r) signUpError.

Definition handleSubmit (r : State) : Act :=
  fn (setError "";;
      setLoading true;;
      try_finally
        (try_catch
           (if isLogin r then signIn r else signUp r)
           (λ _, setError "An unexpected error occurred."))
        (setLoading false)).

(** The form events: the handler of the current render runs on the
    current state. *)
Definition submit (s : State * World) : State * World :=
  run (handleSubmit (fst s)) s.

Definition submitReset (s : State * World) : State * World :=
  run (handleResetPassword (fst s)) s.

(** What the inner [try] of the sign-in branch throws on a submission, if
    it throws: this is the error its [catch] receives. *)
Definition signInFailure (s : State * World) : option exn :=
  match signInBody (fst s) (run (setError "";; setLoading true) s) with
  | (Thrown e, _) => Some e
  | _ => None
  end.

(** Among the requests of a sign-in submission (counted from 0), the
    position of the resend of the verification e-mail to account [u]: it
    follows the sign-in, the read of the profile document and, when there
    is no such document, its creation. *)
Definition resendIndex (w : World) (u : User) : nat :=
  match users w !! uid u with
  | Some _ => 2
  | None => 3
  end.

End Auth.

(** ** The profile view ([ProfileAgent]) *)

Module ProfileAgent.
Import Firebase.

(** The [lang] property. *)
Inductive Lang := vi | en.

(** The [useState] cells of the component, and [timeouts]: the
    milliseconds left on each pending [setTimeout(() => setMsg(''), ...)],
    which is the only callback the component ever schedules. *)
Record State := mkState {
  loading : bool;
  updating : bool;
  profileData : option Doc;
  editName : string;
  msg : string;
  timeouts : list nat;
}.

Definition initial : State := mkState true false None "" "" [].

Definition with_loading (x : bool) (v : State) : State :=
  mkState x (updating v) (profileData v) (editName v) (msg v) (timeouts v).

Definition with_updating (x : bool) (v : State) : State :=
  mkState (loading v) x (profileData v) (editName v) (msg v) (timeouts v).

Definition with_profileData (x : option Doc) (v : State) : State :=
  mkState (loading v) (updating v) x (editName v) (msg v) (timeouts v).

Definition with_editName (x : string) (v : State) : State :=
  mkState (loading v) (updating v) (profileData v) x (msg v) (timeouts v).

Definition with_msg (x : string) (v : State) : State :=
  mkState (loading v) (updating v) (profileData v) (editName v) x (timeouts v).

Definition schedule (ms : nat) (v : State) : State :=
  mkState (loading v) (updating v) (profileData v) (editName v) (msg v)
          (timeouts v ++ [ms]).

Abbreviation Act := (M (State * World) unit).

Definition setState (f : State → State) : Act := modify (prod_map f id).

Definition setLoading (x : bool) : Act := setState (with_loading x).
Definition setUpdating (x : bool) : Act := setState (with_updating x).
Definition setProfileData (x : option Doc) : Act := setState (with_profileData x).
Definition setEditName (x : string) : Act := setState (with_editName x).
Definition setMsg (x : string) : Act := setState (with_msg x).

(** [setTimeout(() => setMsg(''), ms)] *)
Definition setTimeout_clearMsg (ms : nat) : Act := setState (schedule ms).

(** The passing of [t] milliseconds with no other event: the callbacks
    that are due run (each sets [msg] to the empty string), the others
    stay pending with less time left. *)
Definition elapse (t : nat) (v : State) : State :=
  mkState (loading v) (updating v) (profileData v) (editName v)
          (if bool_decide (Exists (λ d : nat, (d ≤ t)%nat) (timeouts v)) then ""
           else msg v)
          ((λ d : nat, (d - t)%nat) <$> filter (λ d : nat, (t < d)%nat) (timeouts v)).

(** *** [fetchProfile]

    [auth.currentUser] is read twice with no [await] in between; the
    model reads it once. *)
Definition fetchProfile : Act :=
  fn (currentUser ← getCurrentUser;
      match currentUser with
      | None => return_
      | Some user =>
          try_finally
            (try_catch
               (docSnap ← getDoc (uid user);
                match docSnap with
                | Some data =>
                    setProfileData (Some data);;
                    setEditName (null_or (data !! "name") "")
                | None => skip
                end)
               (λ _, skip))
            (setLoading false)
      end).

(** *** [handleUpdate]

    [fetchProfile()] is started without [await]: its promise never
    rejects and its state updates touch other cells than the [finally] of
    [handleUpdate] does, so running it to its end in place gives the same
    final state and the same requests. *)
Definition updatedMsg (lang : Lang) : string :=
  match lang with
  | vi => "Cập nhật thành công!"
  | en => "Profile updated successfully!"
  end.

Definition updateFailedMsg (lang : Lang) : string :=
  match lang with
  | vi => "Lỗi cập nhật."
  | en => "Update failed."
  end.

Definition handleUpdate (lang : Lang) (r : State) : Act :=
  fn (currentUser ← getCurrentUser;
      match currentUser with
      | None => return_
      | Some user =>
          setUpdating true;;
          try_finally
            (try_catch
               (updateDoc (uid user) {[ "name" := editName r ]};;
                setMsg (updatedMsg lang);;
                setTimeout_clearMsg 3000;;
                fetchProfile)
               (λ _, setMsg (updateFailedMsg lang)))
            (setUpdating false)
      end).

(** *** [handleDeleteAccount] *)
Definition confirmMsg (lang : Lang) : string :=
  match lang with
  | vi => "Bạn có chắc chắn muốn xóa tài khoản? Hành động này không thể hoàn tác."
  | en => "Are you sure you want to delete your account? This cannot be undone."
  end.

Definition deleteFailedMsg (lang : Lang) : string :=
  match lang with
  | vi => "Lỗi: Cần đăng nhập lại để xóa."
  | en => "Error: Requires recent login."
  end.

Definition handleDeleteAccount (lang : Lang) : Act :=
  fn (currentUser ← getCurrentUser;
      match currentUser with
      | None => return_
      | Some user =>
          confirmed ← confirm (confirmMsg lang);
          when confirmed
            (setUpdating true;;
             try_catch
               (deleteDoc (uid user);;
                currentUser' ← getCurrentUser;
                match currentUser' with
                | Some user' => deleteUser user'
                | None => throw TypeError
                end)
               (λ _,
                  setMsg (deleteFailedMsg lang);;
                  setUpdating false))
      end).

(** The events of the view. *)
Definition load (s : State * World) : State * World := run fetchProfile s.

Definition save (lang : Lang) (s : State * World) : State * World :=
  run (handleUpdate lang (fst s)) s.

Definition deleteAccount (lang : Lang) (s : State * World) : State * World :=
  run (handleDeleteAccount lang) s.

End ProfileAgent.

(** ** Concrete accounts, documents and worlds *)

Module Scenario.
Import Firebase.

Definition stamp : string := "2024-05-01T09:30:00.000Z".

(** An account that signed up as Ann and confirmed her address, and the
    same account before the confirmation. *)
Definition ann : User := mkUser "uid-ann" "a@x.com" (Some "Ann") true.
Definition annUnverified : User := mkUser "uid-ann" "a@x.com" (Some "Ann") false.

(** What the identity service hands out on account creation. *)
Definition fresh : User := mkUser "uid-ann" "a@x.com" None false.

Definition annDoc : Doc :=
  {[ "name" := "Ann";
     "email" := "a@x.com";
     "photoFileName" := "";
     "photoBase64" := "";
     "createdAt" := "2024-04-01T08:00:00.000Z" ]}.

(** An identity service that knows Ann (verified or not) under the
    password ["secret1"], rejects every other credential, and registers
    new accounts. *)
Definition knows (u : User) (email password : string) : string + User :=
  if bool_decide (email = user_email u ∧ password = "secret1") then inr u
  else inl "auth/wrong-password".

Definition registers (email password : string) : string + User :=
  inr fresh.

(** Nobody signed in; [docs] in the store; the transport follows [fs]. *)
Definition signedOut (u : User) (docs : gmap string Doc)
    (fs : list (option string)) : World :=
  mkWorld None docs (knows u) registers stamp true fs [].

(** Ann signed in. *)
Definition signedIn (docs : gmap string Doc) (fs : list (option string)) : World :=
  mkWorld (Some ann) docs (knows ann) registers stamp true fs [].

(** The sign-in form and the sign-up form as filled in. *)
Definition signInForm (password : string) : Auth.State :=
  Auth.mkState true false false "a@x.com" password "" "" None "" "" false false.

Definition signUpForm (password confirmPassword : string) : Auth.State :=
  Auth.mkState false false false "a@x.com" password confirmPassword "Ann"
               None "" "" false false.

Definition forgotForm (email : string) : Auth.State :=
  Auth.mkState true true false email "" "" "" None "" "" false false.

(** The profile view showing Ann's document, the name edited to "Anne". *)
Definition editing : ProfileAgent.State :=
  ProfileAgent.mkState false false (Some annDoc) "Anne" "" [].

End Scenario.

(** ** The rest of the two components *)

(** [keeps f m]: whatever [m] does, the value of [f] on the component
    state is afterwards what it was. *)
Definition keeps {V A B} (f : V → B) (m : M (V * Firebase.World) A) : Prop :=
  ∀ v w, f (fst (snd (m (v, w)))) = f v.

Module AuthUI.
Import Firebase Auth.

Definition with_isLogin (x : bool) (v : State) : State :=
  mkState x (isForgotPassword v) (resetSuccess v) (email v)
          (password v) (confirmPassword v) (name v) (photoPreview v)
          (photoFileName v) (error v) (loading v) (verificationPending v).

Definition with_photoPreview (x : option string) (v : State) : State :=
  mkState (isLogin v) (isForgotPassword v) (resetSuccess v) (email v)
          (password v) (confirmPassword v) (name v) x
          (photoFileName v) (error v) (loading v) (verificationPending v).

Definition with_photoFileName (x : string) (v : State) : State :=
  mkState (isLogin v) (isForgotPassword v) (resetSuccess v) (email v)
          (password v) (confirmPassword v) (name v) (photoPreview v)
          x (error v) (loading v) (verificationPending v).

(** A file of the file picker: its name, and what a [FileReader] ends
    with when it reads it as a data URL ([None] is a [reader.result] that
    is [null]: the read failed). *)
Record File := mkFile {
  file_name : string;
  file_result : option string;
}.

(** [handlePhotoChange] up to the start of the read; [files] is
    [e.target.files] ([None] is [null]). *)
Definition handlePhotoChange (files : option (list File)) (v : State) : State :=
  match files with
  | Some (file :: _) => with_photoFileName (file_name file) v
  | _ => v
  end.

(** [reader.onloadend], which runs later, when the read has ended. *)
Definition onloadend (file : File) (v : State) : State :=
  with_photoPreview (file_result file) v.

(** What the user typed or chose, and the two mode flags. *)
Definition inputs (v : State) :=
  (isLogin v, isForgotPassword v, email v, password v, confirmPassword v,
   name v, photoPreview v, photoFileName v).

(** What the inner [try] of the sign-up branch throws on a submission, if
    it throws. *)
Definition signUpFailure (s : State * World) : option exn :=
  match signUpBody (fst s) (run (setError "";; setLoading true) s) with
  | (Thrown e, _) => Some e
  | _ => None
  end.

(** The error box of the sign-in / sign-up screen shows a "Yes" button
    next to this one message. *)
Definition offersSignIn (v : State) : bool :=
  truthy (error v) && bool_decide (error v = "User already exists. Sign in?").

(** The [onClick] of that button. *)
Definition acceptSignIn (v : State) : State :=
  with_error "" (with_isLogin true v).

End AuthUI.

Module ProfileUI.
Import Firebase ProfileAgent.

(** [s.includes(needle)] *)
Fixpoint includes (needle s : string) : bool :=
  String.prefix needle s
  || match s with
     | EmptyString => false
     | String _ s' => includes needle s'
     end.

(** The message box: absent for an empty [msg], red when the message
    contains "Lỗi" or "Error", green otherwise. *)
Inductive Banner := NoBanner | RedBanner | GreenBanner.

Definition banner (v : State) : Banner :=
  if truthy (msg v) then
    if includes "Lỗi" (msg v) || includes "Error" (msg v) then RedBanner
    else GreenBanner
  else NoBanner.

End ProfileUI.

Module Cases.
Import Firebase.

(** An identity service on which the address is already registered. *)
Definition taken : World :=
  mkWorld None ∅ (Scenario.knows Scenario.ann)
          (λ _ _, inl "auth/email-already-in-use") Scenario.stamp true [] [].

End Cases.

(** ** Facts about requests *)

Module FirebaseFacts.
Import Firebase.

Section Requests.
Context {V A : Type}.
Implicit Types (c : Call) (serve : World → exn + A * World) (v : V) (w : World).

(** A request the transport rejects changes nothing but the trace. *)
Lemma request_rejected c serve v w code :
  fault 0 w = Some code →
  request c serve (v, w) = (Thrown (FirebaseError code), (v, sent c w)).
Proof.
  unfold fault, request, sent. simpl.
  destruct (faults w) as [|[c'|] fs]; simpl; intros; simplify_eq; done.
Qed.

(** A request the transport lets through is answered by the service. *)
Lemma request_served c serve v w :
  fault 0 w = None →
  request c serve (v, w) =
    match serve (sent c w) with
    | inl e => (Thrown e, (v, sent c w))
    | inr (a, w') => (Normal a, (v, w'))
    end.
Proof.
  unfold fault, request, sent. simpl.
  destruct (faults w) as [|[c'|] fs]; simpl; intros; simplify_eq; done.
Qed.
End Requests.

Lemma fault_cases i w : fault i w = None ∨ ∃ code, fault i w = Some code.
Proof. destruct (fault i w); eauto. Qed.

(** *** Computations and the view *)
Section Frame.
Context {V : Type}.

Lemma quiet_request {A} c (serve : World → exn + A * World) :
  quiet (request c serve : M (V * World) A).
Proof.
  intros v w. unfold request.
  destruct (faults (log c w)) as [|[code|] fs]; simpl; try done;
    destruct (serve _) as [e|[a w']]; done.
Qed.

Lemma quiet_read {A} (f : World → A) :
  quiet (λ s : V * World, (Normal (f (snd s)), s)).
Proof. done. Qed.

Lemma quiet_skip : quiet (skip : M (V * World) unit).
Proof. done. Qed.

Lemma quiet_bind {A B} (m : M (V * World) A) (k : A → M (V * World) B) :
  quiet m → (∀ a, quiet (k a)) → quiet (m ≫= k).
Proof.
  intros Hm Hk v w. specialize (Hm v w).
  unfold mbind, M_bind, bind.
  destruct (m (v, w)) as [[a| |e] [v1 w1]]; simpl in *; subst; try done.
  apply Hk.
Qed.

Lemma quiet_when (b : bool) (m : M (V * World) unit) :
  quiet m → quiet (when b m).
Proof. destruct b; [done | intros _; apply quiet_skip]. Qed.

Lemma quiet_try_catch (m : M (V * World) unit) h :
  quiet m → (∀ e, quiet (h e)) → quiet (try_catch m h).
Proof.
  intros Hm Hh v w. specialize (Hm v w). unfold try_catch.
  destruct (m (v, w)) as [[a| |e] [v1 w1]]; simpl in *; subst; try done.
  apply Hh.
Qed.

Lemma stable_quiet {A} (m : M (V * World) A) : quiet m → stable m.
Proof.
  intros Hm v w. specialize (Hm v w).
  destruct (m (v, w)) as [[a| |e] s']; done.
Qed.

Lemma stable_modify (f : V * World → V * World) : stable (modify f).
Proof. done. Qed.

Lemma stable_bind {A B} (m : M (V * World) A) (k : A → M (V * World) B) :
  quiet m → (∀ a, stable (k a)) → stable (m ≫= k).
Proof.
  intros Hm Hk v w. specialize (Hm v w).
  unfold mbind, M_bind, bind.
  destruct (m (v, w)) as [[a| |e] [v1 w1]]; simpl in *; subst; try done.
  apply Hk.
Qed.
End Frame.

End FirebaseFacts.

Arguments Firebase.request : simpl never.

Ltac unfold_monad :=
  unfold mbind, M_bind, bind, fn, try_finally, try_catch, when, skip, ret,
    throw, return_, modify, run in *.

Ltac unfold_services :=
  unfold Firebase.signInWithEmailAndPassword,
    Firebase.createUserWithEmailAndPassword, Firebase.updateProfile,
    Firebase.sendEmailVerification, Firebase.signOut,
    Firebase.sendPasswordResetEmail, Firebase.deleteUser, Firebase.getDoc,
    Firebase.setDoc, Firebase.updateDoc, Firebase.deleteDoc,
    Firebase.getCurrentUser, Firebase.newDateISO, Firebase.confirm in *.

(** The side condition of a step: the fault slot of the current world is a
    slot of the initial one. *)
Ltac fault_slot :=
  unfold Firebase.fault in *; simpl; rewrite ?lookup_tail; eassumption.

(** One request that goes through, one that is rejected. *)
Ltac served :=
  rewrite FirebaseFacts.request_served by fault_slot; simpl.
Ltac rejected :=
  erewrite FirebaseFacts.request_rejected by fault_slot; simpl.

(** ** The sign-in / sign-up controller *)

Module AuthSpec.
Import Firebase Auth FirebaseFacts.

(** C7.  A sign-up whose password and confirmation differ sends no
    request at all (the world, and with it the trace of requests, is left
    as it was), shows the inline error "Passwords do not match" and puts
    the loading flag back to false. *)
Theorem signup_mismatch_sends_nothing (v : State) (w : World) :
  isLogin v = false →
  password v ≠ confirmPassword v →
  let s' := submit (v, w) in
  snd s' = w
  ∧ trace (snd s') = trace w
  ∧ error (fst s') = "Passwords do not match"
  ∧ loading (fst s') = false
  ∧ render (fst s') = render v.
Proof.
  intros Hl Hp s'. subst s'.
  unfold submit, handleSubmit, signUp; cbn [fst]. rewrite Hl.
  rewrite bool_decide_true by done.
  unfold render. done.
Qed.

Lemma signup_mismatch_witness :
  let v := Scenario.signUpForm "secret1" "secret2" in
  let w := Scenario.signedOut Scenario.ann ∅ [] in
  isLogin v = false
  ∧ password v ≠ confirmPassword v
  ∧ trace (snd (submit (v, w))) = []
  ∧ error (fst (submit (v, w))) = "Passwords do not match".
Proof.
  intros v w.
  assert (Hl : isLogin v = false) by reflexivity.
  assert (Hp : password v ≠ confirmPassword v) by discriminate.
  destruct (signup_mismatch_sends_nothing v w Hl Hp) as (_ & Ht & He & _).
  exact (conj Hl (conj Hp (conj Ht He))).
Defined.

(** C9.  A forgot-password submission with an empty e-mail field sends no
    request and shows "Please enter your email address."; with a
    non-empty field exactly one request is sent, asking the identity
    service to dispatch a reset link to that address, and when it
    succeeds the confirmation (the "Reset Link Sent" screen) is shown. *)
Theorem forgot_password_submission (v : State) (w : World) :
  let s' := submitReset (v, w) in
  (email v = "" →
     snd s' = w
     ∧ trace (snd s') = trace w
     ∧ error (fst s') = "Please enter your email address."
     ∧ loading (fst s') = false
     ∧ resetSuccess (fst s') = resetSuccess v)
  ∧ (email v ≠ "" →
     trace (snd s') = trace w ++ [SendPasswordResetEmail (email v)]
     ∧ loading (fst s') = false
     ∧ (fault 0 w = None →
          resetSuccess (fst s') = true
          ∧ error (fst s') = ""
          ∧ (render v = ForgotPasswordForm → render (fst s') = ResetLinkSent))).
Proof.
  intros s'. subst s'.
  unfold submitReset, handleResetPassword, truthy; cbn [fst]. split.
  - intros ->. done.
  - intros Hne. rewrite bool_decide_true by done.
    unfold_services. unfold_monad. simpl.
    destruct (FirebaseFacts.fault_cases 0 w) as [H0|[code H0]].
    + served. repeat split; try done.
      unfold render; simpl. repeat case_match; done.
    + rejected. unfold resetError, setError, setState.
      repeat destruct (code_is _ _); unfold_monad; simpl;
        (split_and!; try done; intros; congruence).
Qed.

Lemma forgot_password_witness :
  let w := Scenario.signedOut Scenario.ann ∅ [] in
  (error (fst (submitReset (Scenario.forgotForm "", w)))
     = "Please enter your email address."
   ∧ trace (snd (submitReset (Scenario.forgotForm "", w))) = [])
  ∧ (trace (snd (submitReset (Scenario.forgotForm "a@x.com", w)))
       = [SendPasswordResetEmail "a@x.com"]
     ∧ render (fst (submitReset (Scenario.forgotForm "a@x.com", w)))
       = ResetLinkSent).
Proof.
  intros w. split.
  - destruct (forgot_password_submission (Scenario.forgotForm "") w) as [H _].
    destruct (H eq_refl) as (_ & Ht & He & _). split; [exact He | exact Ht].
  - destruct (forgot_password_submission (Scenario.forgotForm "a@x.com") w)
      as [_ H].
    destruct (H ltac:(discriminate)) as (Ht & _ & Hs).
    destruct (Hs eq_refl) as (_ & _ & Hr).
    split; [exact Ht | exact (Hr eq_refl)].
Defined.


Lemma str_or_empty (a : string) : str_or a "" = a.
Proof. unfold str_or, truthy. case_bool_decide; [done|]. by destruct (decide (a = "")). Qed.

Lemma null_or_empty (a : option string) : null_or a "" = default "" a.
Proof. destruct a; simpl; [apply str_or_empty | done]. Qed.

(** C3.  A sign-up with matching passwords on which every request
    succeeds sends, in this order: the account creation, the update of the
    display name (only when a name was entered), the write of the profile
    document with the fields name, email, photoFileName, photoBase64
    (empty strings when no photo was chosen) and createdAt, the
    verification e-mail, the sign-out.  It ends on the verification
    screen with no active session. *)
Theorem signup_success (v : State) (w : World) (u : User) :
  isLogin v = false →
  password v = confirmPassword v →
  register w (email v) (password v) = inr u →
  (∀ i, i < (if bool_decide (name v = "") then 4 else 5) → fault i w = None) →
  let s' := submit (v, w) in
  let doc := signUpProfile v (now w) in
  trace (snd s') =
    trace w
      ++ [CreateUserWithEmailAndPassword (email v) (password v)]
      ++ (if bool_decide (name v = "") then []
          else [UpdateProfile (uid u) (name v)])
      ++ [SetDoc (uid u) doc; SendEmailVerification (uid u); SignOut]
  ∧ (doc !! "name" = Some (name v)
     ∧ doc !! "email" = Some (email v)
     ∧ doc !! "photoFileName" = Some (photoFileName v)
     ∧ doc !! "photoBase64" = Some (default "" (photoPreview v))
     ∧ doc !! "createdAt" = Some (now w)
     ∧ dom doc = {[ "name"; "email"; "photoFileName"; "photoBase64"; "createdAt" ]})
  ∧ users (snd s') !! uid u = Some doc
  ∧ verificationPending (fst s') = true
  ∧ render (fst s') = VerificationSent
  ∧ currentUser (snd s') = None
  ∧ error (fst s') = ""
  ∧ loading (fst s') = false.
Proof.
  intros Hl Hp Hr Hf s' doc. subst s'.
  assert (Hdoc : doc !! "name" = Some (name v)
     ∧ doc !! "email" = Some (email v)
     ∧ doc !! "photoFileName" = Some (photoFileName v)
     ∧ doc !! "photoBase64" = Some (default "" (photoPreview v))
     ∧ doc !! "createdAt" = Some (now w)
     ∧ dom doc = {[ "name"; "email"; "photoFileName"; "photoBase64"; "createdAt" ]}).
  { subst doc. unfold signUpProfile.
    rewrite str_or_empty, null_or_empty.
    split_and!; by simplify_map_eq. }
  destruct Hdoc as (Hd1 & Hd2 & Hd3 & Hd4 & Hd5 & Hd6).
  unfold submit, handleSubmit, signUp, signUpBody, truthy; cbn [fst].
  rewrite Hl, (bool_decide_false (password v ≠ _)) by (intros ?; congruence).
  unfold_services. unfold_monad. simpl.
  case_bool_decide as Hn.
  - pose proof (Hf 0 ltac:(lia)) as H0. pose proof (Hf 1 ltac:(lia)) as H1.
    pose proof (Hf 2 ltac:(lia)) as H2. pose proof (Hf 3 ltac:(lia)) as H3.
    rewrite (bool_decide_false (name v ≠ "")) by (intros ?; congruence).
    served. rewrite Hr. simpl. do 3 served.
    rewrite <- !app_assoc. split_and!; try done.
    all: apply lookup_insert_eq.
  - pose proof (Hf 0 ltac:(lia)) as H0. pose proof (Hf 1 ltac:(lia)) as H1.
    pose proof (Hf 2 ltac:(lia)) as H2. pose proof (Hf 3 ltac:(lia)) as H3.
    pose proof (Hf 4 ltac:(lia)) as H4.
    rewrite (bool_decide_true (name v ≠ "")) by done.
    served. rewrite Hr. simpl. do 4 served.
    rewrite <- !app_assoc. split_and!; try done.
    all: apply lookup_insert_eq.
Qed.

Lemma signup_success_witness :
  let v := Scenario.signUpForm "secret1" "secret1" in
  let w := Scenario.signedOut Scenario.ann ∅ [] in
  password v = confirmPassword v
  ∧ trace (snd (submit (v, w))) =
      [CreateUserWithEmailAndPassword "a@x.com" "secret1";
       UpdateProfile "uid-ann" "Ann";
       SetDoc "uid-ann"
         {[ "name" := "Ann"; "email" := "a@x.com"; "photoFileName" := "";
            "photoBase64" := ""; "createdAt" := Scenario.stamp ]};
       SendEmailVerification "uid-ann";
       SignOut]
  ∧ render (fst (submit (v, w))) = VerificationSent
  ∧ currentUser (snd (submit (v, w))) = None.
Proof.
  intros v w.
  assert (Hf : ∀ i, i < (if bool_decide (name v = "") then 4 else 5) →
               fault i w = None).
  { intros i _. by destruct i. }
  destruct (signup_success v w Scenario.fresh eq_refl eq_refl eq_refl Hf)
    as (Ht & _ & _ & _ & Hr & Hc & _).
  exact (conj eq_refl (conj Ht (conj Hr Hc))).
Defined.


(** The sign-in body changes the view only by its last statement; when it
    throws, the view is as it found it. *)
Lemma signInBody_stable (r : State) : stable (signInBody r).
Proof.
  unfold signInBody, signInWithEmailAndPassword, getDoc, setDoc,
    sendEmailVerification, signOut, setVerificationPending, setState.
  apply stable_bind; [apply quiet_request|]. intros user.
  apply stable_bind; [apply quiet_request|]. intros userDoc.
  apply stable_bind.
  { apply quiet_when, quiet_bind; [apply quiet_read|].
    intros createdAt. apply quiet_request. }
  intros _. destruct (emailVerified user); simpl.
  - apply stable_quiet, quiet_skip.
  - apply stable_bind.
    { apply quiet_try_catch; [apply quiet_request|]. intros _. apply quiet_skip. }
    intros _. apply stable_bind; [apply quiet_request|].
    intros _. apply stable_modify.
Qed.

Lemma signInBody_thrown (r v : State) (w : World) (e : exn) s1 :
  signInBody r (v, w) = (Thrown e, s1) → fst s1 = v.
Proof.
  intros H. pose proof (signInBody_stable r v w) as Hs.
  rewrite H in Hs. exact Hs.
Qed.


(** A sign-in that the identity service refuses fails with the code the
    service gave. *)
Lemma refused_signin_fails (v : State) (w : World) (code : string) :
  fault 0 w = None →
  authenticate w (email v) (password v) = inl code →
  signInFailure (v, w) = Some (FirebaseError code).
Proof.
  intros H0 Ha. unfold signInFailure, signInBody; cbn [fst].
  unfold_services. unfold_monad. simpl.
  served. by rewrite Ha.
Qed.

(** C8.  When a sign-in attempt fails, the message shown is exactly
    "Password or Email Incorrect" for the codes invalid-credential,
    user-not-found and wrong-password, "Too many attempts. Please try
    again later." for too-many-requests, and the connectivity message for
    every other error; in each case the loading flag is back to false and
    the screen is the one the form was submitted from. *)
Theorem signin_failure_message (v : State) (w : World) (e : exn) :
  isLogin v = true →
  signInFailure (v, w) = Some e →
  let v' := fst (submit (v, w)) in
  (err_code e ∈ [Some "auth/invalid-credential"; Some "auth/user-not-found";
                 Some "auth/wrong-password"] →
     error v' = "Password or Email Incorrect")
  ∧ (err_code e = Some "auth/too-many-requests" →
     error v' = "Too many attempts. Please try again later.")
  ∧ (err_code e ∉ [Some "auth/invalid-credential"; Some "auth/user-not-found";
                   Some "auth/wrong-password"; Some "auth/too-many-requests"] →
     error v' = "Failed to sign in. Please check your connection.")
  ∧ loading v' = false
  ∧ screen v' = screen v
  ∧ render v' = render v.
Proof.
  intros Hl Hf v'. subst v'.
  unfold signInFailure in Hf. cbn [fst] in Hf.
  destruct (signInBody v _) as [c [v1 w1]] eqn:Hb.
  destruct c as [| |e']; try discriminate. injection Hf as ->.
  pose proof (signInBody_thrown _ _ _ _ _ Hb) as Hv. simpl in Hv. subst v1.
  unfold submit, handleSubmit, signIn; cbn [fst]. rewrite Hl.
  unfold run in *. unfold mbind, M_bind, bind, fn, try_finally, try_catch in *.
  simpl in *. rewrite Hb. unfold signInError, code_is.
  repeat case_bool_decide; simpl; unfold render; simpl;
    split_and!; intros; try done;
    repeat match goal with
      | H : _ ∈ _ |- _ => apply list_elem_of_In in H; simpl in H
      | H : _ ∉ _ |- _ => rewrite list_elem_of_In in H; simpl in H
      end; intuition congruence.
Qed.

Lemma signin_failure_witness :
  let v := Scenario.signInForm "guess" in
  let w := Scenario.signedOut Scenario.ann {[ "uid-ann" := Scenario.annDoc ]} [] in
  signInFailure (v, w) = Some (FirebaseError "auth/wrong-password")
  ∧ error (fst (submit (v, w))) = "Password or Email Incorrect"
  ∧ loading (fst (submit (v, w))) = false
  ∧ render (fst (submit (v, w))) = SignInForm.
Proof.
  intros v w.
  assert (Hf : signInFailure (v, w) = Some (FirebaseError "auth/wrong-password"))
    by reflexivity.
  destruct (signin_failure_message v w _ eq_refl Hf) as (He & _ & _ & Hl & _ & Hr).
  refine (conj Hf (conj (He _) (conj Hl Hr))).
  simpl. apply list_elem_of_In. simpl. tauto.
Defined.


(** The [catch] of the sign-in branch only sets the error message. *)
Lemma signInError_sets_error (e : exn) (v : State) (w : World) :
  ∃ m, signInError e (v, w) = (Normal (), (with_error m v, w)).
Proof.
  unfold signInError. repeat case_match; eexists; reflexivity.
Qed.

Ltac caught :=
  match goal with
  | |- context [ signInError ?e (?v, ?w) ] =>
      let m := fresh "m" in
      let Hm := fresh "Hm" in
      destruct (signInError_sets_error e v w) as [m Hm]; rewrite Hm; simpl
  end.

(** C4, as the code has it.  On a sign-in whose credentials are accepted
    for an account with an unverified address, and on which the check of
    the profile document goes through (the read and, when the document is
    absent, its creation), the controller asks for a resend of the
    verification e-mail and, whether or not that request fails, asks for
    the sign-out next, whatever the outcome of the sign-out; these are
    the last two requests.  When the sign-out succeeds the session is
    ended and the verification screen is shown; when it is rejected the
    session stays the one of the account and the verification screen is
    not reached. *)
Theorem signin_unverified (v : State) (w : World) (u : User) :
  isLogin v = true →
  fault 0 w = None →
  authenticate w (email v) (password v) = inr u →
  emailVerified u = false →
  (∀ i, 0 < i < resendIndex w u → fault i w = None) →
  let s' := submit (v, w) in
  trace (snd s') =
    trace w
      ++ [SignInWithEmailAndPassword (email v) (password v); GetDoc (uid u)]
      ++ match users w !! uid u with
         | Some _ => []
         | None => [SetDoc (uid u) (signInProfile u (now w))]
         end
      ++ [SendEmailVerification (uid u); SignOut]
  ∧ loading (fst s') = false
  ∧ (fault (S (resendIndex w u)) w = None →
       currentUser (snd s') = None
       ∧ verificationPending (fst s') = true
       ∧ render (fst s') = VerificationSent
       ∧ error (fst s') = "")
  ∧ (fault (S (resendIndex w u)) w ≠ None →
       currentUser (snd s') = Some u
       ∧ verificationPending (fst s') = verificationPending v).
Proof.
  intros Hl H0 Ha Hu Hdoc s'. subst s'.
  unfold submit, handleSubmit, signIn, signInBody; cbn [fst]. rewrite Hl.
  unfold_services. unfold_monad. simpl.
  served. rewrite Ha. simpl. rewrite Hu. simpl.
  unfold resendIndex in *.
  destruct (users w !! uid u) as [d|] eqn:Hd.
  - pose proof (Hdoc 1 ltac:(lia)) as H1.
    served. rewrite Hd. simpl.
    destruct (fault_cases 2 w) as [H2|[c2 H2]]; [served | rejected];
      (destruct (fault_cases 3 w) as [H3|[c3 H3]]; [served | rejected; caught]);
      rewrite <- !app_assoc; split_and!; try done; intros; congruence.
  - pose proof (Hdoc 1 ltac:(lia)) as H1. pose proof (Hdoc 2 ltac:(lia)) as H2.
    served. rewrite Hd. simpl. served.
    destruct (fault_cases 3 w) as [H3|[c3 H3]]; [served | rejected];
      (destruct (fault_cases 4 w) as [H4|[c4 H4]]; [served | rejected; caught]);
      rewrite <- !app_assoc; split_and!; try done; intros; congruence.
Qed.

Lemma signin_unverified_witness :
  let v := Scenario.signInForm "secret1" in
  let w := Scenario.signedOut Scenario.annUnverified
             {[ "uid-ann" := Scenario.annDoc ]}
             [None; None; Some "auth/too-many-requests"] in
  let w2 := Scenario.signedOut Scenario.annUnverified
              {[ "uid-ann" := Scenario.annDoc ]}
              [None; None; None; Some "auth/network-request-failed"] in
  (trace (snd (submit (v, w))) =
     [SignInWithEmailAndPassword "a@x.com" "secret1"; GetDoc "uid-ann";
      SendEmailVerification "uid-ann"; SignOut]
   ∧ currentUser (snd (submit (v, w))) = None
   ∧ render (fst (submit (v, w))) = VerificationSent)
  ∧ (trace (snd (submit (v, w2))) =
       [SignInWithEmailAndPassword "a@x.com" "secret1"; GetDoc "uid-ann";
        SendEmailVerification "uid-ann"; SignOut]
     ∧ currentUser (snd (submit (v, w2))) = Some Scenario.annUnverified).
Proof.
  intros v w w2.
  assert (Hdoc : ∀ w', resendIndex w' Scenario.annUnverified = 2 →
                 fault 1 w' = None →
                 ∀ i, 0 < i < resendIndex w' Scenario.annUnverified →
                 fault i w' = None).
  { intros w' -> H1 i Hi. assert (i = 1) as -> by lia. exact H1. }
  split.
  - destruct (signin_unverified v w Scenario.annUnverified
                eq_refl eq_refl eq_refl eq_refl (Hdoc w eq_refl eq_refl))
      as (Ht & _ & Hok & _).
    destruct (Hok eq_refl) as (Hc & _ & Hr & _).
    exact (conj Ht (conj Hc Hr)).
  - destruct (signin_unverified v w2 Scenario.annUnverified
                eq_refl eq_refl eq_refl eq_refl (Hdoc w2 eq_refl eq_refl))
      as (Ht & _ & _ & Hko).
    destruct (Hko ltac:(discriminate)) as (Hc & _).
    exact (conj Ht Hc).
Defined.

(** C4 as stated fails: the credentials are accepted, the address is not
    verified, and the read of the profile document is rejected.  No
    resend and no sign-out are requested, the session stays active and
    the sign-in form stays on screen with the connectivity message.  It
    also fails when the sign-out itself is rejected: the session stays
    active and the verification screen is not reached. *)
Lemma unverified_session_survives_store_failure :
  let v := Scenario.signInForm "secret1" in
  let stored := {[ "uid-ann" := Scenario.annDoc ]} in
  let w := Scenario.signedOut Scenario.annUnverified stored
             [None; Some "unavailable"] in
  let w2 := Scenario.signedOut Scenario.annUnverified stored
              [None; None; None; Some "auth/network-request-failed"] in
  authenticate w (email v) (password v) = inr Scenario.annUnverified
  ∧ emailVerified Scenario.annUnverified = false
  ∧ (trace (snd (submit (v, w))) =
       [SignInWithEmailAndPassword "a@x.com" "secret1"; GetDoc "uid-ann"]
     ∧ ¬ (SignOut ∈ trace (snd (submit (v, w))))
     ∧ currentUser (snd (submit (v, w))) = Some Scenario.annUnverified
     ∧ verificationPending (fst (submit (v, w))) = false
     ∧ render (fst (submit (v, w))) = SignInForm
     ∧ error (fst (submit (v, w))) =
         "Failed to sign in. Please check your connection.")
  ∧ (trace (snd (submit (v, w2))) =
       [SignInWithEmailAndPassword "a@x.com" "secret1"; GetDoc "uid-ann";
        SendEmailVerification "uid-ann"; SignOut]
     ∧ currentUser (snd (submit (v, w2))) = Some Scenario.annUnverified
     ∧ verificationPending (fst (submit (v, w2))) = false
     ∧ render (fst (submit (v, w2))) = SignInForm).
Proof.
  cbv zeta. split_and!; try exact eq_refl.
  intros H. apply list_elem_of_In in H. vm_compute in H. intuition discriminate.
Qed.

(** C1, as the code has it.  On a sign-in whose credentials are accepted
    and on which the read of the profile document reports that there is
    none, the third request, right after the read and before any resend
    or sign-out, writes a document under the account id whose name is the
    account's display name, or "User" when the account has none (or an
    empty one), with the account's e-mail, an empty photoFileName and the
    creation time; when that write succeeds the store holds the
    document. *)
Theorem signin_creates_missing_profile (v : State) (w : World) (u : User) :
  isLogin v = true →
  fault 0 w = None →
  authenticate w (email v) (password v) = inr u →
  fault 1 w = None →
  users w !! uid u = None →
  let s' := submit (v, w) in
  let doc := signInProfile u (now w) in
  (∃ later,
      trace (snd s') =
        trace w
          ++ [SignInWithEmailAndPassword (email v) (password v);
              GetDoc (uid u); SetDoc (uid u) doc]
          ++ later
      ∧ later `prefix_of` [SendEmailVerification (uid u); SignOut])
  ∧ doc !! "name" =
      Some (match displayName u with
            | Some n => if decide (n = "") then "User" else n
            | None => "User"
            end)
  ∧ doc !! "email" = Some (user_email u)
  ∧ doc !! "photoFileName" = Some ""
  ∧ doc !! "createdAt" = Some (now w)
  ∧ (fault 2 w = None → users (snd s') !! uid u = Some doc).
Proof.
  intros Hl H0 Ha H1 Hd s' doc. subst s'.
  assert (Hdoc : doc !! "name" =
      Some (match displayName u with
            | Some n => if decide (n = "") then "User" else n
            | None => "User"
            end)
    ∧ doc !! "email" = Some (user_email u)
    ∧ doc !! "photoFileName" = Some ""
    ∧ doc !! "createdAt" = Some (now w)).
  { subst doc. unfold signInProfile, null_or, str_or, truthy.
    split_and!; try by simplify_map_eq.
    rewrite lookup_insert_eq. f_equal.
    destruct (displayName u) as [n|]; [|done].
    destruct (decide (n = "")); [by rewrite bool_decide_false by tauto|].
    by rewrite bool_decide_true. }
  destruct Hdoc as (Hd1 & Hd2 & Hd3 & Hd4).
  unfold submit, handleSubmit, signIn, signInBody; cbn [fst]. rewrite Hl.
  unfold_services. unfold_monad. simpl.
  served. rewrite Ha. simpl. served. rewrite Hd. simpl.
  destruct (fault_cases 2 w) as [H2|[c2 H2]]; [served | rejected].
  - destruct (emailVerified u); simpl.
    + split_and!; try done.
      * exists []. rewrite <- !app_assoc. split; [done | by eexists].
      * intros _. apply lookup_insert_eq.
    + destruct (fault_cases 3 w) as [H3|[c3 H3]]; [served | rejected];
        (destruct (fault_cases 4 w) as [H4|[c4 H4]]; [served | rejected; caught]);
        (split_and!; try done; [|intros _; apply lookup_insert_eq]);
        (eexists; rewrite <- !app_assoc; split; [simpl; reflexivity | by eexists]).
  - caught. split_and!; try done; [|intros; congruence].
    exists []. rewrite <- !app_assoc. split; [done | by eexists].
Qed.

Lemma signin_creates_missing_profile_witness :
  let v := Scenario.signInForm "secret1" in
  let w := Scenario.signedOut Scenario.fresh ∅ [] in
  users w !! "uid-ann" = None
  ∧ users (snd (submit (v, w))) !! "uid-ann" =
      Some {[ "name" := "User"; "email" := "a@x.com"; "photoFileName" := "";
              "createdAt" := Scenario.stamp ]}.
Proof.
  intros v w.
  destruct (signin_creates_missing_profile v w Scenario.fresh
              eq_refl eq_refl eq_refl eq_refl eq_refl)
    as (_ & _ & _ & _ & _ & Hs).
  exact (conj eq_refl (Hs eq_refl)).
Defined.

(** C1 as stated fails: Ann's account has a display name and no profile
    document (the state a failed account deletion leaves behind).  The
    document created at her next sign-in carries the name "Ann", not
    "User", and has no photoBase64 field at all.  It also fails when the
    write is rejected: the account is left without a document. *)
Lemma signin_profile_not_default :
  let v := Scenario.signInForm "secret1" in
  let w := Scenario.signedOut Scenario.ann ∅ [] in
  let w2 := Scenario.signedOut Scenario.ann ∅
              [None; None; Some "permission-denied"] in
  let s' := submit (v, w) in
  authenticate w (email v) (password v) = inr Scenario.ann
  ∧ users w !! "uid-ann" = None
  ∧ users (snd s') !! "uid-ann" =
      Some {[ "name" := "Ann"; "email" := "a@x.com"; "photoFileName" := "";
              "createdAt" := Scenario.stamp ]}
  ∧ ¬ (∃ doc, users (snd s') !! "uid-ann" = Some doc
              ∧ doc !! "name" = Some "User"
              ∧ doc !! "email" = Some "a@x.com"
              ∧ doc !! "photoFileName" = Some ""
              ∧ doc !! "photoBase64" = Some "")
  ∧ users (snd (submit (v, w2))) !! "uid-ann" = None.
Proof.
  cbv zeta.
  set (created := {[ "name" := "Ann"; "email" := "a@x.com";
                     "photoFileName" := ""; "createdAt" := Scenario.stamp ]}).
  assert (Hs : users (snd (submit (Scenario.signInForm "secret1",
                 Scenario.signedOut Scenario.ann ∅ []))) !! "uid-ann"
               = Some created) by exact eq_refl.
  split_and!; [exact eq_refl.. | exact Hs | | exact eq_refl].
  intros (doc & Hdoc & Hname & _).
  rewrite Hs in Hdoc. apply (inj Some) in Hdoc. subst doc.
  assert (Hn : created !! "name" = Some "Ann") by exact eq_refl.
  rewrite Hn in Hname. discriminate.
Qed.

End AuthSpec.

(** ** The profile view *)

Module ProfileSpec.
Import Firebase ProfileAgent FirebaseFacts.

(** What [fetchProfile] does, by cases on the session, on the transport
    and on the store: at most one request, a read, and no change to the
    view besides [loading] unless the document is there. *)
Lemma fetchProfile_run (v : State) (w : World) :
  fetchProfile (v, w) =
    (Normal (),
     match currentUser w with
     | None => (v, w)
     | Some u =>
         (match fault 0 w, users w !! uid u with
          | None, Some data =>
              with_loading false
                (with_editName (null_or (data !! "name") "")
                   (with_profileData (Some data) v))
          | _, _ => with_loading false v
          end,
          sent (GetDoc (uid u)) w)
     end).
Proof.
  unfold fetchProfile. unfold_services. unfold_monad. simpl.
  destruct (currentUser w) as [u|]; [|done].
  destruct (fault_cases 0 w) as [H0|[code H0]]; rewrite H0.
  - served. destruct (users w !! uid u); done.
  - rejected. done.
Qed.

(** C10.  Loading the profile sends at most one request, a read of the
    profile document, and leaves the document store and the session as
    they were.  When the account has no document, none is created, the
    profile data on display and the editable name are unchanged and no
    message is shown. *)
Theorem load_is_read_only (v : State) (w : World) :
  let s' := load (v, w) in
  (trace (snd s') = trace w ∨ ∃ id, trace (snd s') = trace w ++ [GetDoc id])
  ∧ users (snd s') = users w
  ∧ currentUser (snd s') = currentUser w
  ∧ (∀ u, currentUser w = Some u →
          users w !! uid u = None →
          trace (snd s') = trace w ++ [GetDoc (uid u)]
          ∧ users (snd s') !! uid u = None
          ∧ profileData (fst s') = profileData v
          ∧ editName (fst s') = editName v
          ∧ msg (fst s') = msg v).
Proof.
  intros s'. subst s'. unfold load, run. rewrite fetchProfile_run. simpl.
  destruct (currentUser w) as [u|] eqn:Hu; simpl.
  - split_and!; [right; by eexists | done | done |].
    intros u' [= <-] Hd. rewrite Hd.
    destruct (fault 0 w); done.
  - split_and!; [by left | done | done | done].
Qed.

Lemma load_is_read_only_witness :
  let s' := load (Scenario.editing, Scenario.signedIn ∅ []) in
  trace (snd s') = [GetDoc "uid-ann"]
  ∧ users (snd s') !! "uid-ann" = None
  ∧ profileData (fst s') = Some Scenario.annDoc
  ∧ editName (fst s') = "Anne"
  ∧ msg (fst s') = "".
Proof.
  destruct (load_is_read_only Scenario.editing (Scenario.signedIn ∅ []))
    as (_ & _ & _ & H).
  exact (H Scenario.ann eq_refl eq_refl).
Defined.

(** C2.  A confirmed account deletion requests the deletion of the
    profile document first and, only once that has succeeded, the
    deletion of the account; nothing else is requested.  When the
    account deletion fails, the document is gone from the store, the
    error message is shown, the session is still the one of the account,
    and the view is no longer busy. *)
Theorem delete_account_order (lang : Lang) (v : State) (w : World) (u : User) :
  currentUser w = Some u →
  confirmAnswer w = true →
  let s' := deleteAccount lang (v, w) in
  trace (snd s') =
    trace w ++ match fault 0 w with
               | None => [DeleteDoc (uid u); DeleteUser (uid u)]
               | Some _ => [DeleteDoc (uid u)]
               end
  ∧ (fault 0 w = None → fault 1 w = None →
       users (snd s') = delete (uid u) (users w)
       ∧ currentUser (snd s') = None)
  ∧ (fault 0 w = None → fault 1 w ≠ None →
       users (snd s') = delete (uid u) (users w)
       ∧ users (snd s') !! uid u = None
       ∧ msg (fst s') = deleteFailedMsg lang
       ∧ currentUser (snd s') = Some u
       ∧ updating (fst s') = false).
Proof.
  intros Hu Hc s'. subst s'.
  unfold deleteAccount, handleDeleteAccount.
  unfold_services. unfold_monad. simpl. rewrite Hu. simpl. rewrite Hc. simpl.
  destruct (fault_cases 0 w) as [H0|[c0 H0]]; rewrite H0.
  - served. rewrite Hu. simpl.
    destruct (fault_cases 1 w) as [H1|[c1 H1]].
    + served. rewrite <- !app_assoc. split_and!; try done.
    + rejected. rewrite <- !app_assoc. split_and!; try done.
      * intros _ ?; congruence.
      * intros _ _. split_and!; try done. apply lookup_delete_eq.
  - rejected. split_and!; try done; intros; congruence.
Qed.

Lemma delete_account_order_witness :
  let w := Scenario.signedIn {[ "uid-ann" := Scenario.annDoc ]}
             [None; Some "auth/requires-recent-login"] in
  let s' := deleteAccount en (Scenario.editing, w) in
  trace (snd s') = [DeleteDoc "uid-ann"; DeleteUser "uid-ann"]
  ∧ users (snd s') !! "uid-ann" = None
  ∧ msg (fst s') = "Error: Requires recent login."
  ∧ currentUser (snd s') = Some Scenario.ann.
Proof.
  intros w.
  destruct (delete_account_order en Scenario.editing w Scenario.ann
              eq_refl eq_refl) as (Ht & _ & H).
  destruct (H eq_refl ltac:(discriminate)) as (_ & Hd & Hm & Hc & _).
  exact (conj Ht (conj Hd (conj Hm Hc))).
Defined.

(** What [handleUpdate] does when the write goes through and when it
    does not. *)
Lemma save_written (lang : Lang) (v : State) (w : World) (u : User) (d : Doc) :
  currentUser w = Some u →
  fault 0 w = None →
  users w !! uid u = Some d →
  let write := UpdateDoc (uid u) {[ "name" := editName v ]} in
  let d' := {[ "name" := editName v ]} ∪ d in
  save lang (v, w) =
    (with_updating false
       ((match fault 1 w with
         | None =>
             λ x, with_loading false
                    (with_editName (null_or (d' !! "name") "")
                       (with_profileData (Some d') x))
         | Some _ => with_loading false
         end)
          (schedule 3000 (with_msg (updatedMsg lang) (with_updating true v)))),
     sent (GetDoc (uid u)) (set_users (<[uid u := d']> (users w)) (sent write w))).
Proof.
  intros Hu H0 Hd write d'. subst write d'.
  unfold save, handleUpdate, run; cbn [fst].
  unfold updateDoc, getCurrentUser, setUpdating, setMsg, setTimeout_clearMsg,
    setState.
  unfold_monad. simpl. rewrite Hu. simpl.
  served. rewrite Hd. simpl.
  rewrite fetchProfile_run. simpl. rewrite Hu.
  change (fault 0 (set_users _ (sent _ w))) with (default None (tail (faults w) !! 0)).
  rewrite lookup_tail. fold (fault 1 w).
  rewrite lookup_insert_eq.
  destruct (fault 1 w); done.
Qed.

Lemma save_not_written (lang : Lang) (v : State) (w : World) (u : User) :
  currentUser w = Some u →
  users w !! uid u = None ∨ fault 0 w ≠ None →
  save lang (v, w) =
    (with_updating false (with_msg (updateFailedMsg lang) (with_updating true v)),
     sent (UpdateDoc (uid u) {[ "name" := editName v ]}) w).
Proof.
  intros Hu Hw.
  unfold save, handleUpdate, run; cbn [fst].
  unfold updateDoc, getCurrentUser, setUpdating, setMsg, setTimeout_clearMsg,
    setState.
  unfold_monad. simpl. rewrite Hu. simpl.
  destruct (fault_cases 0 w) as [H0|[code H0]].
  - destruct Hw as [Hd|?]; [|done]. served. rewrite Hd. done.
  - rejected. done.
Qed.

(** C5, as the code has it.  The first request of every save is a
    partial update that carries the name field and nothing else.  When
    that write succeeds, a read of the document gives the new name with
    every other field as it was, the other documents are untouched, and
    the view fetches the document again right after the write. *)
Theorem save_writes_name_only (lang : Lang) (v : State) (w : World) (u : User) :
  currentUser w = Some u →
  let s' := save lang (v, w) in
  let write := UpdateDoc (uid u) {[ "name" := editName v ]} in
  (∃ later, trace (snd s') = trace w ++ write :: later)
  ∧ (∀ d, users w !! uid u = Some d →
          fault 0 w = None →
          trace (snd s') = trace w ++ [write; GetDoc (uid u)]
          ∧ (∃ d', users (snd s') !! uid u = Some d'
                   ∧ d' !! "name" = Some (editName v)
                   ∧ (∀ f, f ≠ "name" → d' !! f = d !! f)
                   ∧ (fault 1 w = None → profileData (fst s') = Some d'))
          ∧ (∀ id, id ≠ uid u → users (snd s') !! id = users w !! id)).
Proof.
  intros Hu s' write. subst s' write. split.
  - destruct (fault_cases 0 w) as [H0|[code H0]];
      [destruct (users w !! uid u) as [d|] eqn:Hd|].
    + rewrite (save_written lang v w u d Hu H0 Hd). simpl.
      eexists. rewrite <- !app_assoc. simpl. reflexivity.
    + rewrite (save_not_written lang v w u Hu) by (by left). simpl. by eexists.
    + rewrite (save_not_written lang v w u Hu) by (right; congruence).
      simpl. by eexists.
  - intros d Hd H0. rewrite (save_written lang v w u d Hu H0 Hd). simpl.
    rewrite <- !app_assoc. split_and!; [done| |].
    + eexists. split_and!.
      * apply lookup_insert_eq.
      * apply lookup_union_Some_l, lookup_singleton_eq.
      * intros f Hf. apply lookup_union_r. by apply lookup_singleton_ne.
      * intros ->. done.
    + intros id Hid. by apply lookup_insert_ne.
Qed.

Lemma save_writes_name_only_witness :
  let w := Scenario.signedIn {[ "uid-ann" := Scenario.annDoc ]} [] in
  let s' := save en (Scenario.editing, w) in
  trace (snd s') =
    [UpdateDoc "uid-ann" {[ "name" := "Anne" ]}; GetDoc "uid-ann"]
  ∧ ∃ d', users (snd s') !! "uid-ann" = Some d'
          ∧ d' !! "name" = Some "Anne"
          ∧ d' !! "email" = Some "a@x.com"
          ∧ d' !! "createdAt" = Some "2024-04-01T08:00:00.000Z"
          ∧ profileData (fst s') = Some d'.
Proof.
  intros w.
  destruct (save_writes_name_only en Scenario.editing w Scenario.ann eq_refl)
    as (_ & H).
  destruct (H Scenario.annDoc eq_refl eq_refl) as (Ht & (d' & Hd & Hn & Ho & Hp) & _).
  split; [exact Ht|]. exists d'. split_and!.
  - exact Hd.
  - exact Hn.
  - rewrite (Ho "email") by discriminate. exact eq_refl.
  - rewrite (Ho "createdAt") by discriminate. exact eq_refl.
  - exact (Hp eq_refl).
Defined.

(** C5 as stated fails: the write is rejected.  The view does not fetch
    the document again, and a read still gives the old name. *)
Lemma save_rejected_no_refetch :
  let w := Scenario.signedIn {[ "uid-ann" := Scenario.annDoc ]}
             [Some "unavailable"] in
  let s' := save en (Scenario.editing, w) in
  trace (snd s') = [UpdateDoc "uid-ann" {[ "name" := "Anne" ]}]
  ∧ ¬ (GetDoc "uid-ann" ∈ trace (snd s'))
  ∧ users (snd s') !! "uid-ann" = Some Scenario.annDoc
  ∧ Scenario.annDoc !! "name" = Some "Ann"
  ∧ ¬ (∃ d', users (snd s') !! "uid-ann" = Some d'
             ∧ d' !! "name" = Some "Anne").
Proof.
  cbv zeta.
  assert (Hs : users (snd (save en (Scenario.editing,
                 Scenario.signedIn {[ "uid-ann" := Scenario.annDoc ]}
                   [Some "unavailable"]))) !! "uid-ann"
               = Some Scenario.annDoc) by exact eq_refl.
  assert (Hn : Scenario.annDoc !! "name" = Some "Ann") by exact eq_refl.
  split_and!; [exact eq_refl| |exact Hs|exact Hn|].
  - intros H. apply list_elem_of_In in H. destruct H as [H|[]]. discriminate H.
  - intros (d' & Hd & Hname). rewrite Hs in Hd. apply (inj Some) in Hd.
    subst d'. rewrite Hn in Hname. discriminate.
Qed.

(** C6, as the code has it.  When the write of a save succeeds, the
    success message is shown and a timer of 3000 ms is set that clears
    it: the message is gone once 3000 ms have passed, and is still there
    before that as long as no older timer is due.  When the write fails,
    the failure message is shown and no timer is set for it: it stays as
    long as no older timer is due. *)
Theorem save_message_timer (lang : Lang) (v : State) (w : World) (u : User) :
  currentUser w = Some u →
  let s' := save lang (v, w) in
  (is_Some (users w !! uid u) → fault 0 w = None →
     msg (fst s') = updatedMsg lang
     ∧ timeouts (fst s') = timeouts v ++ [3000]
     ∧ (∀ t, 3000 ≤ t → msg (elapse t (fst s')) = "")
     ∧ (∀ t, t < 3000 → Forall (λ d, t < d) (timeouts v) →
             msg (elapse t (fst s')) = updatedMsg lang))
  ∧ (users w !! uid u = None ∨ fault 0 w ≠ None →
     msg (fst s') = updateFailedMsg lang
     ∧ timeouts (fst s') = timeouts v
     ∧ (∀ t, Forall (λ d, t < d) (timeouts v) →
             msg (elapse t (fst s')) = updateFailedMsg lang)).
Proof.
  intros Hu s'. subst s'. split.
  - intros [d Hd] H0. rewrite (save_written lang v w u d Hu H0 Hd).
    assert (Hm : ∀ x, msg (match fault 1 w with
         | None =>
             λ x, with_loading false
                    (with_editName (null_or (({[ "name" := editName v ]} ∪ d) !! "name") "")
                       (with_profileData (Some ({[ "name" := editName v ]} ∪ d)) x))
         | Some _ => with_loading false
         end x) = msg x) by (intros x; destruct (fault 1 w); done).
    assert (Ht : ∀ x, timeouts (match fault 1 w with
         | None =>
             λ x, with_loading false
                    (with_editName (null_or (({[ "name" := editName v ]} ∪ d) !! "name") "")
                       (with_profileData (Some ({[ "name" := editName v ]} ∪ d)) x))
         | Some _ => with_loading false
         end x) = timeouts x) by (intros x; destruct (fault 1 w); done).
    unfold elapse. simpl. rewrite Hm, Ht. simpl. split_and!; [done | done | |].
    + intros t Ht'. rewrite bool_decide_true; [done|].
      apply Exists_app. right. by apply Exists_cons_hd.
    + intros t Ht' Hold. rewrite bool_decide_false; [done|].
      rewrite Exists_app, !Exists_cons, Exists_nil.
      intros [He|[?|[]]]; [|lia].
      apply Exists_exists in He as (x & Hx & ?).
      rewrite Forall_forall in Hold. specialize (Hold x Hx). lia.
  - intros Hw. rewrite (save_not_written lang v w u Hu Hw).
    unfold elapse. simpl. split_and!; [done | done |].
    intros t Hold. rewrite bool_decide_false; [done|].
    intros He. apply Exists_exists in He as (x & Hx & ?).
    rewrite Forall_forall in Hold. specialize (Hold x Hx). lia.
Qed.

Lemma save_message_timer_witness :
  let w := Scenario.signedIn {[ "uid-ann" := Scenario.annDoc ]} [] in
  let s' := save en (Scenario.editing, w) in
  msg (fst s') = "Profile updated successfully!"
  ∧ msg (elapse 2999 (fst s')) = "Profile updated successfully!"
  ∧ msg (elapse 3000 (fst s')) = "".
Proof.
  intros w.
  destruct (save_message_timer en Scenario.editing w Scenario.ann eq_refl)
    as (H & _).
  destruct (H (mk_is_Some _ _ eq_refl) eq_refl) as (Hm & _ & Hc & Hk).
  split_and!.
  - exact Hm.
  - apply Hk; [lia | constructor].
  - apply Hc; lia.
Defined.

(** C6 as stated fails: the write is rejected.  "Update failed." is
    shown, no timer is pending, and the message is still there after
    3000 ms. *)
Lemma save_failure_message_stays :
  let w := Scenario.signedIn {[ "uid-ann" := Scenario.annDoc ]}
             [Some "unavailable"] in
  let s' := save en (Scenario.editing, w) in
  msg (fst s') = "Update failed."
  ∧ timeouts (fst s') = []
  ∧ msg (elapse 3000 (fst s')) = "Update failed."
  ∧ msg (elapse 3000 (fst s')) ≠ "".
Proof.
  cbv zeta. split_and!; [exact eq_refl..|].
  change (msg (elapse 3000 (fst (save en (Scenario.editing,
            Scenario.signedIn {[ "uid-ann" := Scenario.annDoc ]}
              [Some "unavailable"]))))) with "Update failed.".
  discriminate.
Qed.

End ProfileSpec.

(** ** Frame lemmas *)

Module HandlerFacts.
Import Firebase.

Section Keeps.
Context {V B : Type} (f : V → B).

Lemma keeps_quiet {A} (m : M (V * World) A) : quiet m → keeps f m.
Proof. intros Hm v w. by rewrite Hm. Qed.

Lemma keeps_request {A} c (serve : World → exn + A * World) :
  keeps f (request c serve : M (V * World) A).
Proof. apply keeps_quiet, FirebaseFacts.quiet_request. Qed.

Lemma keeps_modify (g : V → V) :
  (∀ v, f (g v) = f v) → keeps f (modify (prod_map g id)).
Proof. intros Hg v w. apply Hg. Qed.

Lemma keeps_bind {A C} (m : M (V * World) A) (k : A → M (V * World) C) :
  keeps f m → (∀ a, keeps f (k a)) → keeps f (m ≫= k).
Proof.
  intros Hm Hk v w. specialize (Hm v w).
  unfold mbind, M_bind, bind.
  destruct (m (v, w)) as [[a| |e] [v1 w1]]; simpl in *; try done.
  rewrite <- Hm. apply Hk.
Qed.

Lemma keeps_when (b : bool) (m : M (V * World) unit) :
  keeps f m → keeps f (when b m).
Proof. destruct b; [done | by intros _ v w]. Qed.

Lemma keeps_try_catch (m : M (V * World) unit) h :
  keeps f m → (∀ e, keeps f (h e)) → keeps f (try_catch m h).
Proof.
  intros Hm Hh v w. specialize (Hm v w). unfold try_catch.
  destruct (m (v, w)) as [[a| |e] [v1 w1]]; simpl in *; try done.
  rewrite <- Hm. apply Hh.
Qed.

Lemma keeps_try_finally (m fin : M (V * World) unit) :
  keeps f m → keeps f fin → keeps f (try_finally m fin).
Proof.
  intros Hm Hf v w. specialize (Hm v w). unfold try_finally.
  destruct (m (v, w)) as [c [v1 w1]]; simpl in *.
  specialize (Hf v1 w1).
  destruct (fin (v1, w1)) as [[a| |e] [v2 w2]]; simpl in *; congruence.
Qed.

Lemma keeps_fn (m : M (V * World) unit) : keeps f m → keeps f (fn m).
Proof.
  intros Hm v w. specialize (Hm v w). unfold fn.
  destruct (m (v, w)) as [[a| |e] [v1 w1]]; done.
Qed.

Lemma keeps_return : keeps f (return_ : M (V * World) unit).
Proof. done. Qed.

Lemma keeps_skip : keeps f (skip : M (V * World) unit).
Proof. done. Qed.
End Keeps.

(** A [catch] whose handler always completes normally lets no throw
    through. *)
Lemma try_catch_caught {S} (body : M S unit) (h : exn → M S unit) (s : S) :
  (∀ e s', fst (h e s') = Normal ()) →
  ∀ e, fst (try_catch body h s) ≠ Thrown e.
Proof.
  intros Hh e. unfold try_catch.
  destruct (body s) as [[[]| |e'] s1]; simpl; try done.
  by rewrite Hh.
Qed.

End HandlerFacts.

Module AuthExtra.
Import Firebase Auth AuthUI FirebaseFacts HandlerFacts.

(** Solves [keeps f m] for a handler [m] of the component, given that the
    setters it uses keep [f]. *)
Ltac keeps_auth :=
  unfold Auth.setError, Auth.setLoading, Auth.setResetSuccess,
    Auth.setVerificationPending, Auth.setState;
  unfold_services;
  repeat lazymatch goal with
  | |- keeps _ (fn _) => apply keeps_fn
  | |- keeps _ (try_finally _ _) => apply keeps_try_finally
  | |- keeps _ (try_catch _ _) => apply keeps_try_catch; [|intros ?]
  | |- keeps _ (_ ≫= _) => apply keeps_bind; [|intros ?]
  | |- keeps _ (when _ _) => apply keeps_when
  | |- keeps _ (request _ _) => apply keeps_request
  | |- keeps _ return_ => apply keeps_return
  | |- keeps _ skip => apply keeps_skip
  | |- keeps _ (throw _) => by intros ??
  | |- keeps _ (modify _) => apply keeps_modify; intros ?; reflexivity
  | |- keeps _ (λ s, (Normal _, s)) => by intros ??
  | |- keeps _ (if ?b then _ else _) => destruct b
  | |- keeps _ (match ?x with _ => _ end) => destruct x
  end.

Lemma handleSubmit_keeps (r : State) :
  keeps (λ v, (inputs v, resetSuccess v)) (handleSubmit r).
Proof.
  unfold handleSubmit, signIn, signUp, signInBody, signUpBody, signInError,
    signUpError.
  keeps_auth.
Qed.

Lemma handleResetPassword_keeps (r : State) :
  keeps (λ v, (inputs v, verificationPending v)) (handleResetPassword r).
Proof.
  unfold handleResetPassword, resetError. keeps_auth.
Qed.

(** X1.  Whatever the services answer, neither submission handler rejects and
    both end with the loading flag off: the form is never left stuck on
    its spinner. *)
Theorem submissions_recover (v : State) (w : World) :
  fst (handleSubmit v (v, w)) = Normal ()
  ∧ loading (fst (submit (v, w))) = false
  ∧ fst (handleResetPassword v (v, w)) = Normal ()
  ∧ loading (fst (submitReset (v, w))) = false.
Proof.
  assert (Hr : ∀ e s', fst (resetError e s') = Normal ()).
  { intros e s'. unfold resetError. by repeat destruct (code_is _ _). }
  unfold submit, submitReset, run, handleSubmit, handleResetPassword.
  unfold mbind, M_bind, bind, fn, try_finally, when, return_. simpl.
  split_and!.
  1,2: match goal with
       | |- context [ try_catch ?b ?h ?s ] =>
           pose proof (try_catch_caught b h s ltac:(done)) as Hc;
           destruct (try_catch b h s) as [[[]| |e] [v1 w1]]
       end; simpl in *; try done; by destruct (Hc e).
  all: destruct (truthy (email v)); simpl; [|done];
       match goal with
       | |- context [ try_catch ?b ?h ?s ] =>
           pose proof (try_catch_caught b h s Hr) as Hc;
           destruct (try_catch b h s) as [[[]| |e] [v1 w1]]
       end; simpl in *; try done; by destruct (Hc e).
Qed.

(** X2.  A submission of the sign-in / sign-up form changes nothing the user
    entered, neither mode flag and not [resetSuccess]; a submission of
    the forgot-password form changes nothing the user entered, neither
    mode flag and not [verificationPending]. *)
Theorem submissions_keep_the_form (v : State) (w : World) :
  inputs (fst (submit (v, w))) = inputs v
  ∧ resetSuccess (fst (submit (v, w))) = resetSuccess v
  ∧ inputs (fst (submitReset (v, w))) = inputs v
  ∧ verificationPending (fst (submitReset (v, w))) = verificationPending v.
Proof.
  pose proof (handleSubmit_keeps v v w) as Hs.
  pose proof (handleResetPassword_keeps v v w) as Hr.
  unfold submit, submitReset, run. simpl in *.
  apply pair_equal_spec in Hs as [Hs1 Hs2].
  apply pair_equal_spec in Hr as [Hr1 Hr2]. done.
Qed.

Lemma signInBody_keeps_error (r : State) : keeps error (signInBody r).
Proof. unfold signInBody. keeps_auth. Qed.

Lemma signUpBody_keeps_error (r : State) : keeps error (signUpBody r).
Proof. unfold signUpBody. keeps_auth. Qed.

(** X3.  After a submission the error box holds the empty string or one of the
    messages of the branch that ran; the message of the outer [catch] of
    [handleSubmit] is never shown. *)
Theorem submission_messages (v : State) (w : World) :
  error (fst (submit (v, w))) ∈
    (if isLogin v then
       [""; "Password or Email Incorrect";
        "Too many attempts. Please try again later.";
        "Failed to sign in. Please check your connection."]
     else
       [""; "Passwords do not match"; "User already exists. Sign in?";
        "Password should be at least 6 characters.";
        "Failed to create account."])
  ∧ error (fst (submit (v, w))) ≠ "An unexpected error occurred.".
Proof.
  assert (Hin : error (fst (submit (v, w))) ∈
    (if isLogin v then
       [""; "Password or Email Incorrect";
        "Too many attempts. Please try again later.";
        "Failed to sign in. Please check your connection."]
     else
       [""; "Passwords do not match"; "User already exists. Sign in?";
        "Password should be at least 6 characters.";
        "Failed to create account."])).
  { unfold submit, run, handleSubmit; cbn [fst].
    unfold mbind, M_bind, bind, fn, try_finally; simpl.
    destruct (isLogin v).
    - unfold signIn, try_catch.
      pose proof (signInBody_keeps_error v
                    (with_loading true (with_error "" v)) w) as Hk.
      destruct (signInBody v _) as [[[]| |e] [v1 w1]]; simpl in *;
        [rewrite Hk; apply list_elem_of_In; simpl; tauto.. |].
      unfold signInError. repeat destruct (code_is _ _); simpl;
        apply list_elem_of_In; simpl; tauto.
    - unfold signUp, when, mbind, M_bind, bind; simpl.
      case_bool_decide; simpl; [apply list_elem_of_In; simpl; tauto|].
      unfold try_catch.
      pose proof (signUpBody_keeps_error v
                    (with_loading true (with_error "" v)) w) as Hk.
      destruct (signUpBody v _) as [[[]| |e] [v1 w1]]; simpl in *;
        [rewrite Hk; apply list_elem_of_In; simpl; tauto.. |].
      unfold signUpError. repeat destruct (code_is _ _); simpl;
        apply list_elem_of_In; simpl; tauto. }
  split; [exact Hin|].
  intros Heq. rewrite Heq in Hin. apply list_elem_of_In in Hin.
  destruct (isLogin v); simpl in Hin; intuition discriminate.
Qed.

(** The sign-up body changes the view only by its last statement. *)
Lemma signUpBody_stable (r : State) : stable (signUpBody r).
Proof.
  unfold signUpBody, createUserWithEmailAndPassword, updateProfile, setDoc,
    sendEmailVerification, signOut, setVerificationPending, setState.
  apply stable_bind; [apply quiet_request|]. intros user.
  apply stable_bind; [apply quiet_when, quiet_request|]. intros _.
  apply stable_bind; [apply quiet_read|]. intros createdAt.
  apply stable_bind; [apply quiet_request|]. intros _.
  apply stable_bind; [apply quiet_request|]. intros _.
  apply stable_bind; [apply quiet_request|]. intros _.
  apply stable_modify.
Qed.

(** How a sign-up with matching passwords ends when its body throws [e]. *)
Lemma signUp_thrown (v : State) (w : World) (e : exn) :
  isLogin v = false →
  password v = confirmPassword v →
  signUpFailure (v, w) = Some e →
  ∃ w', submit (v, w) =
          (with_loading false
             (fst (snd (signUpError e
                          (with_loading true (with_error "" v), w')))),
           w').
Proof.
  intros Hl Hp Hf.
  unfold signUpFailure in Hf. cbn [fst] in Hf.
  destruct (signUpBody v _) as [c [v1 w1]] eqn:Hb.
  destruct c as [| |e']; try discriminate. injection Hf as ->.
  unfold run in Hb. simpl in Hb.
  pose proof (signUpBody_stable v (with_loading true (with_error "" v)) w) as Hv.
  rewrite Hb in Hv. simpl in Hv. subst v1.
  exists w1.
  unfold submit, handleSubmit, signUp; cbn [fst]. rewrite Hl.
  rewrite bool_decide_false by (intros ?; congruence).
  unfold run, when, skip, ret, mbind, M_bind, bind, fn, try_finally, try_catch.
  simpl. rewrite Hb. unfold signUpError.
  repeat destruct (code_is _ _); done.
Qed.

(** X4.  When a sign-up with matching passwords fails, the message shown is
    "User already exists. Sign in?" for the code email-already-in-use,
    "Password should be at least 6 characters." for weak-password and
    "Failed to create account." for every other error; the loading flag
    is off and the sign-up form stays on screen. *)
Theorem signup_failure_message (v : State) (w : World) (e : exn) :
  isLogin v = false →
  password v = confirmPassword v →
  signUpFailure (v, w) = Some e →
  let v' := fst (submit (v, w)) in
  (err_code e = Some "auth/email-already-in-use" →
     error v' = "User already exists. Sign in?")
  ∧ (err_code e = Some "auth/weak-password" →
     error v' = "Password should be at least 6 characters.")
  ∧ (err_code e ≠ Some "auth/email-already-in-use" →
     err_code e ≠ Some "auth/weak-password" →
     error v' = "Failed to create account.")
  ∧ loading v' = false
  ∧ screen v' = screen v
  ∧ render v' = render v.
Proof.
  intros Hl Hp Hf v'. subst v'.
  destruct (signUp_thrown v w e Hl Hp Hf) as [w' ->].
  unfold signUpError, code_is.
  repeat case_bool_decide; simpl; unfold render; simpl;
    split_and!; intros; try done; congruence.
Qed.

Lemma signup_failure_witness :
  let v := Scenario.signUpForm "secret1" "secret1" in
  signUpFailure (v, Cases.taken)
    = Some (FirebaseError "auth/email-already-in-use")
  ∧ error (fst (submit (v, Cases.taken))) = "User already exists. Sign in?"
  ∧ render (fst (submit (v, Cases.taken))) = SignUpForm.
Proof.
  intros v.
  assert (Hf : signUpFailure (v, Cases.taken)
               = Some (FirebaseError "auth/email-already-in-use"))
    by reflexivity.
  destruct (signup_failure_message v Cases.taken _ eq_refl eq_refl Hf)
    as (He & _ & _ & _ & _ & Hr).
  exact (conj Hf (conj (He eq_refl) Hr)).
Defined.

(** X5.  The "Yes" button next to the error is offered after a failed sign-up
    exactly when the failure is email-already-in-use; pressing it leads
    to the sign-in form with the error cleared and the e-mail and
    password as typed. *)
Theorem signup_offers_signin (v : State) (w : World) (e : exn) :
  isLogin v = false →
  password v = confirmPassword v →
  signUpFailure (v, w) = Some e →
  let v' := fst (submit (v, w)) in
  (offersSignIn v' = true ↔ err_code e = Some "auth/email-already-in-use")
  ∧ error (acceptSignIn v') = ""
  ∧ email (acceptSignIn v') = email v
  ∧ password (acceptSignIn v') = password v
  ∧ (render v = SignUpForm → render (acceptSignIn v') = SignInForm).
Proof.
  intros Hl Hp Hf v'. subst v'.
  destruct (signUp_thrown v w e Hl Hp Hf) as [w' ->].
  unfold signUpError, code_is, offersSignIn, render.
  repeat case_bool_decide; simpl; split_and!; try done.
  all: try (split; [done | congruence]).
  all: try (intros Hr; repeat case_match; done).
Qed.

Lemma signup_offers_signin_witness :
  let v := Scenario.signUpForm "secret1" "secret1" in
  let v' := fst (submit (v, Cases.taken)) in
  offersSignIn v' = true
  ∧ render (acceptSignIn v') = SignInForm
  ∧ password (acceptSignIn v') = "secret1".
Proof.
  intros v v'.
  destruct (signup_offers_signin v Cases.taken
              (FirebaseError "auth/email-already-in-use")
              eq_refl eq_refl eq_refl) as (Ho & _ & _ & Hp & Hr).
  exact (conj (proj2 Ho eq_refl) (conj (Hr eq_refl) Hp)).
Defined.

Lemma signUpError_sets_error (e : exn) (v : State) (w : World) :
  signUpError e (v, w) =
    (Normal (),
     (with_error
        (if code_is e "auth/email-already-in-use" then
           "User already exists. Sign in?"
         else if code_is e "auth/weak-password" then
           "Password should be at least 6 characters."
         else "Failed to create account.") v, w)).
Proof. unfold signUpError. by repeat destruct (code_is _ _). Qed.

(** X6.  A sign-up on which everything succeeds up to the verification e-mail,
    and that request is rejected: the account has been created and is
    left signed in, its profile document is in the store, no sign-out is
    requested, the verification screen is not reached, and the form shows
    a sign-up error. *)
Theorem signup_stops_at_verification
    (v : State) (w : World) (u : User) (code : string) :
  isLogin v = false →
  password v = confirmPassword v →
  register w (email v) (password v) = inr u →
  let k := if bool_decide (name v = "") then 2 else 3 in
  (∀ i, i < k → fault i w = None) →
  fault k w = Some code →
  let s' := submit (v, w) in
  trace (snd s') =
    trace w
      ++ [CreateUserWithEmailAndPassword (email v) (password v)]
      ++ (if bool_decide (name v = "") then []
          else [UpdateProfile (uid u) (name v)])
      ++ [SetDoc (uid u) (signUpProfile v (now w));
          SendEmailVerification (uid u)]
  ∧ users (snd s') !! uid u = Some (signUpProfile v (now w))
  ∧ currentUser (snd s') =
      Some (if bool_decide (name v = "") then u
            else with_displayName (name v) u)
  ∧ verificationPending (fst s') = verificationPending v
  ∧ error (fst s') =
      (if decide (code = "auth/email-already-in-use") then
         "User already exists. Sign in?"
       else if decide (code = "auth/weak-password") then
         "Password should be at least 6 characters."
       else "Failed to create account.")
  ∧ loading (fst s') = false.
Proof.
  intros Hl Hp Hr k Hk Hc s'. subst s' k.
  assert (He : ∀ x : State,
    error (with_loading false (with_error
        (if code_is (FirebaseError code) "auth/email-already-in-use" then
           "User already exists. Sign in?"
         else if code_is (FirebaseError code) "auth/weak-password" then
           "Password should be at least 6 characters."
         else "Failed to create account.") x)) =
      (if decide (code = "auth/email-already-in-use") then
         "User already exists. Sign in?"
       else if decide (code = "auth/weak-password") then
         "Password should be at least 6 characters."
       else "Failed to create account.")).
  { intros x. unfold code_is. simpl.
    repeat case_bool_decide; repeat case_decide; simpl; congruence. }
  unfold submit, handleSubmit, signUp, signUpBody, truthy; cbn [fst].
  rewrite Hl, (bool_decide_false (password v ≠ _)) by (intros ?; congruence).
  unfold_services. unfold_monad. simpl.
  case_bool_decide as Hn.
  - rewrite (bool_decide_false (name v ≠ "")) by (intros ?; congruence).
    pose proof (Hk 0 ltac:(lia)) as H0. pose proof (Hk 1 ltac:(lia)) as H1.
    served. rewrite Hr. simpl. served. rejected.
    rewrite signUpError_sets_error. simpl.
    rewrite <- !app_assoc. split_and!; try done.
    + apply lookup_insert_eq.
    + apply (He (with_loading true (with_error "" v))).
  - rewrite (bool_decide_true (name v ≠ "")) by done.
    pose proof (Hk 0 ltac:(lia)) as H0. pose proof (Hk 1 ltac:(lia)) as H1.
    pose proof (Hk 2 ltac:(lia)) as H2.
    served. rewrite Hr. simpl. do 2 served. rejected.
    rewrite signUpError_sets_error. simpl.
    rewrite <- !app_assoc. split_and!; try done.
    + apply lookup_insert_eq.
    + apply (He (with_loading true (with_error "" v))).
Qed.

Lemma signup_stops_at_verification_witness :
  let v := Scenario.signUpForm "secret1" "secret1" in
  let w := Scenario.signedOut Scenario.ann ∅
             [None; None; None; Some "auth/too-many-requests"] in
  currentUser (snd (submit (v, w)))
    = Some (with_displayName "Ann" Scenario.fresh)
  ∧ error (fst (submit (v, w))) = "Failed to create account."
  ∧ verificationPending (fst (submit (v, w))) = false.
Proof.
  intros v w.
  assert (Hk : ∀ i, i < (if bool_decide (name v = "") then 2 else 3) →
               fault i w = None).
  { intros i Hi. change (i < 3) in Hi.
    destruct i as [|[|[|i]]]; [reflexivity..|lia]. }
  destruct (signup_stops_at_verification v w Scenario.fresh
              "auth/too-many-requests" eq_refl eq_refl eq_refl Hk eq_refl)
    as (_ & _ & Hc & Hv & He & _).
  exact (conj Hc (conj He Hv)).
Defined.

(** X7.  A forgot-password submission whose request is rejected shows "No user
    found with this email." for the code user-not-found, "Invalid email
    address format." for invalid-email and "Failed to send reset link.
    Try again later." for every other code; the confirmation is not
    shown and the loading flag is off. *)
Theorem forgot_password_failure (v : State) (w : World) (code : string) :
  email v ≠ "" →
  fault 0 w = Some code →
  let s' := submitReset (v, w) in
  error (fst s') =
    (if decide (code = "auth/user-not-found") then
       "No user found with this email."
     else if decide (code = "auth/invalid-email") then
       "Invalid email address format."
     else "Failed to send reset link. Try again later.")
  ∧ resetSuccess (fst s') = resetSuccess v
  ∧ render (fst s') = render v
  ∧ loading (fst s') = false
  ∧ trace (snd s') = trace w ++ [SendPasswordResetEmail (email v)].
Proof.
  intros Hne H0 s'. subst s'.
  unfold submitReset, handleResetPassword, truthy; cbn [fst].
  rewrite bool_decide_true by done.
  unfold_services. unfold_monad. simpl. rejected.
  unfold resetError, code_is, render. simpl.
  repeat case_bool_decide; repeat case_decide; simpl;
    split_and!; try done; congruence.
Qed.

Lemma forgot_password_failure_witness :
  let w := Scenario.signedOut Scenario.ann ∅ [Some "auth/user-not-found"] in
  let s' := submitReset (Scenario.forgotForm "nobody@x.com", w) in
  error (fst s') = "No user found with this email."
  ∧ render (fst s') = ForgotPasswordForm.
Proof.
  intros w.
  destruct (forgot_password_failure (Scenario.forgotForm "nobody@x.com") w
              "auth/user-not-found" ltac:(discriminate) eq_refl)
    as (He & _ & Hr & _).
  exact (conj He Hr).
Defined.

Ltac handled :=
  match goal with
  | |- context [ signInError ?e (?v, ?w) ] =>
      let m := fresh "m" in
      let Hm := fresh "Hm" in
      destruct (AuthSpec.signInError_sets_error e v w) as [m Hm];
      rewrite Hm; simpl
  end.

(** X8.  A sign-in never writes over a profile document that is there: when
    the account that the credentials belong to has a document, the
    document store after the submission is the store before it, whatever
    the outcome of the requests. *)
Theorem signin_keeps_existing_profile (v : State) (w : World) :
  isLogin v = true →
  (∀ u, authenticate w (email v) (password v) = inr u →
        is_Some (users w !! uid u)) →
  users (snd (submit (v, w))) = users w.
Proof.
  intros Hl Hd.
  unfold submit, handleSubmit, signIn, signInBody; cbn [fst]. rewrite Hl.
  unfold_services. unfold_monad. simpl.
  destruct (fault_cases 0 w) as [H0|[c0 H0]]; [served | by (rejected; handled)].
  destruct (authenticate w (email v) (password v)) as [code|u] eqn:Ha; simpl;
    [by handled|].
  destruct (Hd u eq_refl) as [d Hu].
  destruct (fault_cases 1 w) as [H1|[c1 H1]]; [served | by (rejected; handled)].
  rewrite Hu. simpl.
  destruct (emailVerified u); simpl; [done|].
  destruct (fault_cases 2 w) as [H2|[c2 H2]]; [served | rejected];
    (destruct (fault_cases 3 w) as [H3|[c3 H3]];
     [served | rejected; handled]); done.
Qed.

Lemma signin_keeps_existing_profile_witness :
  let v := Scenario.signInForm "secret1" in
  let w := Scenario.signedOut Scenario.annUnverified
             {[ "uid-ann" := Scenario.annDoc ]} [] in
  users (snd (submit (v, w))) !! "uid-ann" = Some Scenario.annDoc.
Proof.
  intros v w.
  assert (Hd : ∀ u, authenticate w (email v) (password v) = inr u →
               is_Some (users w !! uid u)).
  { intros u [= <-]. by eexists. }
  rewrite (signin_keeps_existing_profile v w eq_refl Hd). reflexivity.
Defined.

(** X9.  A sign-in to an account whose address is verified sends the sign-in,
    the read of the profile document and, only when there is none, its
    creation: no resend and no sign-out.  The session stays active and
    the form stays as it is, without an error. *)
Theorem signin_verified (v : State) (w : World) (u : User) :
  isLogin v = true →
  fault 0 w = None →
  authenticate w (email v) (password v) = inr u →
  emailVerified u = true →
  fault 1 w = None →
  (users w !! uid u = None → fault 2 w = None) →
  let s' := submit (v, w) in
  trace (snd s') =
    trace w
      ++ [SignInWithEmailAndPassword (email v) (password v); GetDoc (uid u)]
      ++ match users w !! uid u with
         | Some _ => []
         | None => [SetDoc (uid u) (signInProfile u (now w))]
         end
  ∧ currentUser (snd s') = Some u
  ∧ is_Some (users (snd s') !! uid u)
  ∧ error (fst s') = ""
  ∧ loading (fst s') = false
  ∧ verificationPending (fst s') = verificationPending v
  ∧ render (fst s') = render v.
Proof.
  intros Hl H0 Ha Hv H1 Hd s'. subst s'.
  unfold submit, handleSubmit, signIn, signInBody; cbn [fst]. rewrite Hl.
  unfold_services. unfold_monad. simpl.
  served. rewrite Ha. simpl. served. rewrite Hv.
  destruct (users w !! uid u) as [d|] eqn:Hu; simpl.
  - rewrite <- !app_assoc, Hu. split_and!; first [done | by eexists].
  - pose proof (Hd eq_refl) as H2. served.
    rewrite <- !app_assoc, ?lookup_insert_eq.
    split_and!; first [done | by eexists].
Qed.

Lemma signin_verified_witness :
  let v := Scenario.signInForm "secret1" in
  let w := Scenario.signedOut Scenario.ann {[ "uid-ann" := Scenario.annDoc ]} [] in
  trace (snd (submit (v, w))) =
    [SignInWithEmailAndPassword "a@x.com" "secret1"; GetDoc "uid-ann"]
  ∧ currentUser (snd (submit (v, w))) = Some Scenario.ann
  ∧ render (fst (submit (v, w))) = SignInForm.
Proof.
  intros v w.
  destruct (signin_verified v w Scenario.ann eq_refl eq_refl eq_refl eq_refl
              eq_refl ltac:(discriminate))
    as (Ht & Hc & _ & _ & _ & _ & Hr).
  exact (conj Ht (conj Hc Hr)).
Defined.

(** X10.  Choosing a photo sets the file name at once and the preview only when
    the read has ended.  A profile document built in between carries the
    name of the new file with the data of the previous preview (nothing
    when there was none); one built after the end of the read carries the
    data of the new file, or nothing when the read failed.  With no file
    chosen nothing changes. *)
Theorem photo_choice_and_profile
    (file : File) (others : list File) (v : State) (createdAt : string) :
  let chosen := handlePhotoChange (Some (file :: others)) v in
  let loaded := onloadend file chosen in
  handlePhotoChange None v = v
  ∧ handlePhotoChange (Some []) v = v
  ∧ signUpProfile chosen createdAt !! "photoFileName" = Some (file_name file)
  ∧ signUpProfile chosen createdAt !! "photoBase64"
      = Some (default "" (photoPreview v))
  ∧ signUpProfile loaded createdAt !! "photoFileName" = Some (file_name file)
  ∧ signUpProfile loaded createdAt !! "photoBase64"
      = Some (default "" (file_result file))
  ∧ inputs loaded =
      (isLogin v, isForgotPassword v, email v, password v, confirmPassword v,
       name v, file_result file, file_name file).
Proof.
  intros chosen loaded. subst chosen loaded.
  unfold signUpProfile. simpl.
  rewrite AuthSpec.str_or_empty, !AuthSpec.null_or_empty.
  split_and!; by simplify_map_eq.
Qed.

(** X11.  Credentials that the identity service refuses leave the services as
    they were: the one request is the sign-in (or the account creation),
    the document store and the session are untouched and the screen does
    not change. *)
Theorem refused_credentials_change_nothing
    (v : State) (w : World) (code : string) :
  fault 0 w = None →
  (if isLogin v then authenticate w (email v) (password v)
   else register w (email v) (password v)) = inl code →
  (isLogin v = false → password v = confirmPassword v) →
  let s' := submit (v, w) in
  trace (snd s') =
    trace w ++ [if isLogin v
                then SignInWithEmailAndPassword (email v) (password v)
                else CreateUserWithEmailAndPassword (email v) (password v)]
  ∧ users (snd s') = users w
  ∧ currentUser (snd s') = currentUser w
  ∧ render (fst s') = render v
  ∧ error (fst s') ≠ "".
Proof.
  intros H0 Ha Hp s'. subst s'.
  unfold submit, handleSubmit, signIn, signInBody, signUp, signUpBody;
    cbn [fst].
  destruct (isLogin v) eqn:Hl.
  - unfold_services. unfold_monad. simpl. served. rewrite Ha. simpl.
    unfold signInError, render.
    repeat destruct (code_is _ _); simpl; rewrite Hl; done.
  - rewrite bool_decide_false by (intros ?; by apply H, Hp).
    unfold_services. unfold_monad. simpl. served. rewrite Ha. simpl.
    unfold signUpError, render.
    repeat destruct (code_is _ _); simpl; rewrite Hl; done.
Qed.

Lemma refused_credentials_witness :
  let v := Scenario.signInForm "guess" in
  let w := Scenario.signedOut Scenario.ann {[ "uid-ann" := Scenario.annDoc ]} [] in
  trace (snd (submit (v, w))) = [SignInWithEmailAndPassword "a@x.com" "guess"]
  ∧ currentUser (snd (submit (v, w))) = None.
Proof.
  intros v w.
  destruct (refused_credentials_change_nothing v w "auth/wrong-password"
              eq_refl eq_refl ltac:(discriminate)) as (Ht & _ & Hc & _).
  exact (conj Ht Hc).
Defined.

End AuthExtra.

Module ProfileExtra.
Import Firebase ProfileAgent ProfileUI FirebaseFacts HandlerFacts.

(** What [handleDeleteAccount] does once the prompt is confirmed, by cases
    on the two requests. *)
Lemma deleteAccount_run (lang : Lang) (v : State) (w : World) (u : User) :
  currentUser w = Some u →
  confirmAnswer w = true →
  deleteAccount lang (v, w) =
    match fault 0 w with
    | Some _ =>
        (with_updating false
           (with_msg (deleteFailedMsg lang) (with_updating true v)),
         sent (DeleteDoc (uid u)) w)
    | None =>
        let w1 := set_users (delete (uid u) (users w))
                    (sent (DeleteDoc (uid u)) w) in
        match fault 1 w with
        | Some _ =>
            (with_updating false
               (with_msg (deleteFailedMsg lang) (with_updating true v)),
             sent (DeleteUser (uid u)) w1)
        | None =>
            (with_updating true v,
             set_currentUser None (sent (DeleteUser (uid u)) w1))
        end
    end.
Proof.
  intros Hu Hc. unfold deleteAccount, handleDeleteAccount.
  unfold_services. unfold_monad. simpl. rewrite Hu. simpl. rewrite Hc. simpl.
  destruct (fault_cases 0 w) as [H0|[c0 H0]]; rewrite H0.
  - served. rewrite Hu. simpl.
    destruct (fault_cases 1 w) as [H1|[c1 H1]]; rewrite H1.
    + by served.
    + by rejected.
  - by rejected.
Qed.

(** X12.  Without a session the three operations of the view do nothing at all:
    no request, no change of the view (a view that is still on its
    spinner stays there).  A declined confirmation prompt does the same
    for the account deletion. *)
Theorem profile_guards (lang : Lang) (v : State) (w : World) :
  (currentUser w = None →
     load (v, w) = (v, w)
     ∧ save lang (v, w) = (v, w)
     ∧ deleteAccount lang (v, w) = (v, w))
  ∧ (confirmAnswer w = false → deleteAccount lang (v, w) = (v, w)).
Proof.
  unfold load, save, deleteAccount, run, fetchProfile, handleUpdate,
    handleDeleteAccount.
  unfold_services. unfold_monad. simpl. split.
  - intros ->. done.
  - intros Hc. destruct (currentUser w); simpl; [by rewrite Hc | done].
Qed.

Lemma profile_guards_witness :
  let w := Scenario.signedOut Scenario.ann {[ "uid-ann" := Scenario.annDoc ]} [] in
  load (initial, w) = (initial, w)
  ∧ loading (fst (load (initial, w))) = true
  ∧ save en (Scenario.editing, w) = (Scenario.editing, w).
Proof.
  intros w.
  destruct (profile_guards en initial w) as [H _].
  destruct (H eq_refl) as (Hl & _ & _).
  destruct (profile_guards en Scenario.editing w) as [H' _].
  destruct (H' eq_refl) as (_ & Hs & _).
  split; [exact Hl|]. split; [|exact Hs].
  rewrite Hl. reflexivity.
Defined.

(** X13.  With a session, a load whose read succeeds and finds the document
    shows it and puts its name in the edit field (the empty string when
    the document has no name, or an empty one); a load whose read is
    rejected changes nothing and shows no message.  Either way the
    spinner is off. *)
Theorem load_outcomes (v : State) (w : World) (u : User) :
  currentUser w = Some u →
  let s' := load (v, w) in
  loading (fst s') = false
  ∧ updating (fst s') = updating v
  ∧ msg (fst s') = msg v
  ∧ (∀ d, fault 0 w = None → users w !! uid u = Some d →
        profileData (fst s') = Some d
        ∧ editName (fst s') = default "" (d !! "name"))
  ∧ (fault 0 w ≠ None →
        profileData (fst s') = profileData v
        ∧ editName (fst s') = editName v).
Proof.
  intros Hu s'. subst s'. unfold load, run.
  rewrite ProfileSpec.fetchProfile_run, Hu. simpl.
  split_and!.
  1-3: by destruct (fault 0 w), (users w !! uid u).
  - intros d -> ->. simpl. by rewrite AuthSpec.null_or_empty.
  - intros H0. by destruct (fault 0 w).
Qed.

Lemma load_outcomes_witness :
  let w := Scenario.signedIn {[ "uid-ann" := Scenario.annDoc ]} [] in
  let s' := load (initial, w) in
  loading (fst s') = false
  ∧ profileData (fst s') = Some Scenario.annDoc
  ∧ editName (fst s') = "Ann".
Proof.
  intros w.
  destruct (load_outcomes initial w Scenario.ann eq_refl) as (Hl & _ & _ & H & _).
  destruct (H Scenario.annDoc eq_refl eq_refl) as (Hp & He).
  exact (conj Hl (conj Hp He)).
Defined.

(** X14.  Loading twice shows what loading once shows: after a load whose read
    was not rejected, a second load leaves the view and the store as they
    are (also when the read of the second one is rejected). *)
Theorem load_idempotent (v : State) (w : World) :
  fault 0 w = None →
  fst (load (load (v, w))) = fst (load (v, w))
  ∧ users (snd (load (load (v, w)))) = users w.
Proof.
  intros H0. unfold load, run.
  rewrite (ProfileSpec.fetchProfile_run v w).
  destruct (currentUser w) as [u|] eqn:Hu; simpl.
  - rewrite H0.
    destruct (users w !! uid u) as [d|] eqn:Hd;
      rewrite ProfileSpec.fetchProfile_run; simpl; rewrite Hu, Hd;
      destruct (fault 0 (sent _ w)); split; reflexivity.
  - rewrite ProfileSpec.fetchProfile_run, Hu. done.
Qed.

Lemma load_idempotent_witness :
  let w := Scenario.signedIn {[ "uid-ann" := Scenario.annDoc ]}
             [None; Some "unavailable"] in
  fst (load (load (initial, w))) = fst (load (initial, w))
  ∧ editName (fst (load (load (initial, w)))) = "Ann".
Proof.
  intros w.
  destruct (load_idempotent initial w eq_refl) as [H _].
  split; [exact H|]. rewrite H. reflexivity.
Defined.

(** Without a session a save does nothing. *)
Lemma save_without_session (lang : Lang) (v : State) (w : World) :
  currentUser w = None → save lang (v, w) = (v, w).
Proof.
  intros Hu. unfold save, run, handleUpdate, getCurrentUser.
  unfold_monad. simpl. by rewrite Hu.
Qed.

(** A save by account [u] is one of three runs. *)
Lemma save_cases (lang : Lang) (v : State) (w : World) (u : User) :
  currentUser w = Some u →
  (∃ d, users w !! uid u = Some d ∧ fault 0 w = None)
  ∨ (users w !! uid u = None ∨ fault 0 w ≠ None).
Proof.
  intros _. destruct (users w !! uid u) as [d|]; [|by right; left].
  destruct (fault 0 w) eqn:H0; [by right; right | left; eauto].
Qed.

(** X15.  A save never adds a document to the store and never removes one, and
    it leaves the documents of all other accounts as they are. *)
Theorem save_keeps_the_collection (lang : Lang) (v : State) (w : World) :
  let s' := save lang (v, w) in
  dom (users (snd s')) = dom (users w)
  ∧ currentUser (snd s') = currentUser w
  ∧ (∀ id, currentUser w ≠ None →
           (∀ u, currentUser w = Some u → id ≠ uid u) →
           users (snd s') !! id = users w !! id).
Proof.
  intros s'. subst s'.
  destruct (currentUser w) as [u|] eqn:Hu.
  - destruct (save_cases lang v w u Hu) as [(d & Hd & H0)|Hw].
    + rewrite (ProfileSpec.save_written lang v w u d Hu H0 Hd). simpl.
      split_and!; [|done|].
      * apply dom_insert_lookup_L. eauto.
      * intros id _ Hid. apply lookup_insert_ne. by apply not_eq_sym, Hid.
    + rewrite (ProfileSpec.save_not_written lang v w u Hu Hw). done.
  - by rewrite (save_without_session lang v w Hu).
Qed.

Lemma save_keeps_the_collection_witness :
  let docs := {[ "uid-ann" := Scenario.annDoc; "uid-bob" := Scenario.annDoc ]} in
  let w := Scenario.signedIn docs [] in
  users (snd (save en (Scenario.editing, w))) !! "uid-bob"
    = Some Scenario.annDoc.
Proof.
  intros docs w.
  destruct (save_keeps_the_collection en Scenario.editing w) as (_ & _ & H).
  rewrite (H "uid-bob" ltac:(discriminate)); [reflexivity|].
  intros u [= <-]. discriminate.
Defined.

(** X16.  A save leaves the edit field as the user left it, also when the
    document is fetched again; with a session it ends with the view not
    busy. *)
Theorem save_keeps_the_edit (lang : Lang) (v : State) (w : World) :
  let s' := save lang (v, w) in
  editName (fst s') = editName v
  ∧ (currentUser w ≠ None → updating (fst s') = false).
Proof.
  intros s'. subst s'.
  destruct (currentUser w) as [u|] eqn:Hu.
  - destruct (save_cases lang v w u Hu) as [(d & Hd & H0)|Hw].
    + rewrite (ProfileSpec.save_written lang v w u d Hu H0 Hd). simpl.
      destruct (fault 1 w); simpl; [done|].
      rewrite (lookup_union_Some_l _ _ _ (editName v))
        by apply lookup_singleton_eq.
      simpl. by rewrite AuthSpec.str_or_empty.
    + rewrite (ProfileSpec.save_not_written lang v w u Hu Hw). done.
  - by rewrite (save_without_session lang v w Hu).
Qed.

Lemma save_keeps_the_edit_witness :
  let w := Scenario.signedIn {[ "uid-ann" := Scenario.annDoc ]} [] in
  editName (fst (save en (Scenario.editing, w))) = "Anne"
  ∧ updating (fst (save en (Scenario.editing, w))) = false.
Proof.
  intros w.
  destruct (save_keeps_the_edit en Scenario.editing w) as [He Hu].
  exact (conj He (Hu ltac:(discriminate))).
Defined.

(** X17.  None of the three handlers of the view ever rejects. *)
Theorem profile_handlers_recover (lang : Lang) (v : State) (w : World) :
  fst (fetchProfile (v, w)) = Normal ()
  ∧ fst (handleUpdate lang v (v, w)) = Normal ()
  ∧ fst (handleDeleteAccount lang (v, w)) = Normal ().
Proof.
  split_and!.
  - by rewrite ProfileSpec.fetchProfile_run.
  - unfold handleUpdate, getCurrentUser.
    unfold mbind, M_bind, bind, fn, try_finally, return_. simpl.
    destruct (currentUser w); simpl; [|done].
    match goal with
    | |- context [ try_catch ?b ?h ?s ] =>
        pose proof (try_catch_caught b h s ltac:(done)) as Hc;
        destruct (try_catch b h s) as [[[]| |e] [v1 w1]]
    end; simpl in *; try done. by destruct (Hc e).
  - unfold handleDeleteAccount, getCurrentUser, confirm.
    unfold mbind, M_bind, bind, fn, when, return_. simpl.
    destruct (currentUser w); simpl; [|done].
    destruct (confirmAnswer w); simpl; [|done].
    match goal with
    | |- context [ try_catch ?b ?h ?s ] =>
        pose proof (try_catch_caught b h s ltac:(done)) as Hc;
        destruct (try_catch b h s) as [[[]| |e] [v1 w1]]
    end; simpl in *; try done. by destruct (Hc e).
Qed.

(** X18.  The two other outcomes of a confirmed account deletion.  When both
    requests succeed the document and the session are gone, no message is
    set and the view is left busy.  When the deletion of the document is
    rejected, the store and the session are as before, the account
    deletion is not requested, and the message of the failed login check
    is shown with the view no longer busy. *)
Theorem delete_account_outcomes
    (lang : Lang) (v : State) (w : World) (u : User) :
  currentUser w = Some u →
  confirmAnswer w = true →
  let s' := deleteAccount lang (v, w) in
  (fault 0 w = None → fault 1 w = None →
     users (snd s') !! uid u = None
     ∧ currentUser (snd s') = None
     ∧ msg (fst s') = msg v
     ∧ updating (fst s') = true)
  ∧ (fault 0 w ≠ None →
     users (snd s') = users w
     ∧ currentUser (snd s') = Some u
     ∧ trace (snd s') = trace w ++ [DeleteDoc (uid u)]
     ∧ msg (fst s') = deleteFailedMsg lang
     ∧ updating (fst s') = false).
Proof.
  intros Hu Hc s'. subst s'. rewrite (deleteAccount_run lang v w u Hu Hc).
  split_and!.
  - intros -> ->. simpl. split_and!; try done. apply lookup_delete_eq.
  - intros H0. by destruct (fault 0 w).
Qed.

Lemma delete_account_outcomes_witness :
  let w := Scenario.signedIn {[ "uid-ann" := Scenario.annDoc ]} [] in
  let w2 := Scenario.signedIn {[ "uid-ann" := Scenario.annDoc ]}
              [Some "permission-denied"] in
  (currentUser (snd (deleteAccount en (Scenario.editing, w))) = None
   ∧ updating (fst (deleteAccount en (Scenario.editing, w))) = true)
  ∧ (users (snd (deleteAccount en (Scenario.editing, w2))) !! "uid-ann"
       = Some Scenario.annDoc
     ∧ msg (fst (deleteAccount en (Scenario.editing, w2)))
       = "Error: Requires recent login.").
Proof.
  intros w w2. split.
  - destruct (delete_account_outcomes en Scenario.editing w Scenario.ann
                eq_refl eq_refl) as [H _].
    destruct (H eq_refl eq_refl) as (_ & Hc & _ & Hb).
    exact (conj Hc Hb).
  - destruct (delete_account_outcomes en Scenario.editing w2 Scenario.ann
                eq_refl eq_refl) as [_ H].
    destruct (H ltac:(discriminate)) as (Hs & _ & _ & Hm & _).
    split; [|exact Hm]. rewrite Hs. reflexivity.
Defined.

(** A pending timer clears whatever message is on display when it fires.*)
Lemma elapse_due (t d : nat) (x : State) :
  d ∈ timeouts x → d ≤ t → msg (elapse t x) = "".
Proof.
  intros Hd Ht. unfold elapse. simpl.
  rewrite bool_decide_true; [done|].
  apply Exists_exists. eauto.
Qed.

Lemma handleDeleteAccount_keeps_timeouts (lang : Lang) :
  keeps timeouts (handleDeleteAccount lang).
Proof.
  unfold handleDeleteAccount, setUpdating, setMsg, setState.
  unfold_services.
  repeat lazymatch goal with
  | |- keeps _ (fn _) => apply keeps_fn
  | |- keeps _ (try_catch _ _) => apply keeps_try_catch; [|intros ?]
  | |- keeps _ (_ ≫= _) => apply keeps_bind; [|intros ?]
  | |- keeps _ (when _ _) => apply keeps_when
  | |- keeps _ (request _ _) => apply keeps_request
  | |- keeps _ return_ => apply keeps_return
  | |- keeps _ (throw _) => by intros ??
  | |- keeps _ (modify _) => apply keeps_modify; intros ?; reflexivity
  | |- keeps _ (λ s, (Normal _, s)) => by intros ??
  | |- keeps _ (match ?x with _ => _ end) => destruct x
  end.
Qed.

(** X19.  The timer of an earlier successful save is not tied to its message:
    if it is still pending when a later save or account deletion sets a
    message (a failure message included), that message is cleared when
    the old timer fires, before its own 3000 ms, or, for a failure,
    although no timer was set for it. *)
Theorem old_timer_clears_new_message
    (lang : Lang) (v : State) (w : World) (d t : nat) :
  d ∈ timeouts v →
  d ≤ t →
  msg (elapse t (fst (save lang (v, w)))) = ""
  ∧ msg (elapse t (fst (deleteAccount lang (v, w)))) = "".
Proof.
  intros Hd Ht. split; apply (elapse_due t d); try done.
  - destruct (currentUser w) as [u|] eqn:Hu.
    + destruct (save_cases lang v w u Hu) as [(d' & Hd' & H0)|Hw].
      * rewrite (ProfileSpec.save_written lang v w u d' Hu H0 Hd'). simpl.
        destruct (fault 1 w); simpl; apply elem_of_app; by left.
      * by rewrite (ProfileSpec.save_not_written lang v w u Hu Hw).
    + by rewrite (save_without_session lang v w Hu).
  - unfold deleteAccount, run.
    by rewrite (handleDeleteAccount_keeps_timeouts lang v w).
Qed.

Lemma old_timer_clears_new_message_witness :
  let w := Scenario.signedIn {[ "uid-ann" := Scenario.annDoc ]} [] in
  let w2 := Scenario.signedIn {[ "uid-ann" := Scenario.annDoc ]}
              [Some "unavailable"] in
  let saved := elapse 2000 (fst (save en (Scenario.editing, w))) in
  timeouts saved = [1000]
  ∧ msg (fst (save en (saved, w2))) = "Update failed."
  ∧ msg (elapse 1000 (fst (save en (saved, w2)))) = "".
Proof.
  intros w w2 saved.
  assert (H1 : timeouts saved = [1000]) by reflexivity.
  assert (Hin : 1000 ∈ timeouts saved) by (rewrite H1; apply list_elem_of_here).
  destruct (old_timer_clears_new_message en saved w2 1000 1000 Hin (le_n _))
    as [Hs _].
  exact (conj H1 (conj eq_refl Hs)).
Defined.

(** X20.  The colour of the message box after each outcome: green after a
    successful save, red after a failed account deletion, and after a
    failed save red in Vietnamese but green in English, whose message
    "Update failed." contains neither "Lỗi" nor "Error". *)
Theorem banner_colours (lang : Lang) (v : State) (w : World) (u : User) :
  currentUser w = Some u →
  (is_Some (users w !! uid u) → fault 0 w = None →
     banner (fst (save lang (v, w))) = GreenBanner)
  ∧ (users w !! uid u = None ∨ fault 0 w ≠ None →
     banner (fst (save lang (v, w))) =
       match lang with vi => RedBanner | en => GreenBanner end)
  ∧ (confirmAnswer w = true → fault 0 w ≠ None ∨ fault 1 w ≠ None →
     banner (fst (deleteAccount lang (v, w))) = RedBanner).
Proof.
  intros Hu. split_and!.
  - intros [d Hd] H0.
    rewrite (ProfileSpec.save_written lang v w u d Hu H0 Hd). unfold banner.
    destruct (fault 1 w), lang; reflexivity.
  - intros Hw. rewrite (ProfileSpec.save_not_written lang v w u Hu Hw).
    unfold banner. destruct lang; reflexivity.
  - intros Hc Hf. rewrite (deleteAccount_run lang v w u Hu Hc). unfold banner.
    destruct (fault 0 w), (fault 1 w), lang; try reflexivity;
      destruct Hf; done.
Qed.

Lemma banner_colours_witness :
  let w := Scenario.signedIn {[ "uid-ann" := Scenario.annDoc ]}
             [Some "unavailable"] in
  msg (fst (save en (Scenario.editing, w))) = "Update failed."
  ∧ banner (fst (save en (Scenario.editing, w))) = GreenBanner
  ∧ banner (fst (save vi (Scenario.editing, w))) = RedBanner.
Proof.
  intros w.
  destruct (banner_colours en Scenario.editing w Scenario.ann eq_refl)
    as (_ & He & _).
  destruct (banner_colours vi Scenario.editing w Scenario.ann eq_refl)
    as (_ & Hv & _).
  refine (conj eq_refl (conj (He _) (Hv _))); right; discriminate.
Defined.

End ProfileExtra.

(** ** The two components together *)

Module EndToEnd.
Import Firebase FirebaseFacts.

(** X21.  An account deletion that fails at its second request removes the
    profile document for good: the next sign-in of the account puts a new
    document in its place, which is built from the account alone, so the
    stored photo and the original creation time are lost. *)
Theorem failed_deletion_loses_the_profile
    (lang : ProfileAgent.Lang) (pv : ProfileAgent.State) (v : Auth.State)
    (w : World) (u : User) (d : Doc) (code : string) :
  currentUser w = Some u →
  confirmAnswer w = true →
  users w !! uid u = Some d →
  fault 0 w = None →
  fault 1 w = Some code →
  Auth.isLogin v = true →
  authenticate w (Auth.email v) (Auth.password v) = inr u →
  (∀ i, 2 ≤ i < 5 → fault i w = None) →
  let w1 := snd (ProfileAgent.deleteAccount lang (pv, w)) in
  let w2 := snd (Auth.submit (v, w1)) in
  users w1 !! uid u = None
  ∧ users w2 !! uid u = Some (Auth.signInProfile u (now w))
  ∧ Auth.signInProfile u (now w) !! "photoBase64" = None
  ∧ Auth.signInProfile u (now w) !! "createdAt" = Some (now w)
  ∧ (∀ id, id ≠ uid u → users w2 !! id = users w !! id).
Proof.
  intros Hu Hc Hd H0 H1 Hl Ha Hf w1 w2. subst w2 w1.
  pose proof (Hf 2 ltac:(lia)) as H2. pose proof (Hf 3 ltac:(lia)) as H3.
  pose proof (Hf 4 ltac:(lia)) as H4. clear Hf.
  rewrite (ProfileExtra.deleteAccount_run lang pv w u Hu Hc), H0, H1.
  cbn [snd].
  split; [apply lookup_delete_eq|].
  unfold Auth.submit, Auth.handleSubmit, Auth.signIn, Auth.signInBody;
    cbn [fst]. rewrite Hl.
  unfold_services. unfold_monad. simpl.
  served. rewrite Ha. simpl. served. rewrite lookup_delete_eq. simpl. served.
  assert (Hother : ∀ id, id ≠ uid u →
            <[uid u:=Auth.signInProfile u (now w)]> (delete (uid u) (users w))
              !! id = users w !! id).
  { intros id Hid. rewrite lookup_insert_ne, lookup_delete_ne; done. }
  destruct (emailVerified u); simpl.
  - split_and!; try done. apply lookup_insert_eq.
  - destruct (fault_cases 5 w) as [H5|[c5 H5]]; [served | rejected];
      (destruct (fault_cases 6 w) as [H6|[c6 H6]];
       [served | rejected; AuthExtra.handled]);
      (split_and!; try done; apply lookup_insert_eq).
Qed.

Lemma failed_deletion_loses_the_profile_witness :
  let w := Scenario.signedIn
             {[ "uid-ann" := <[ "photoBase64" := "data:image/png;base64,AAAA" ]>
                               Scenario.annDoc ]}
             [None; Some "auth/requires-recent-login"] in
  let w1 := snd (ProfileAgent.deleteAccount ProfileAgent.en
                   (Scenario.editing, w)) in
  let w2 := snd (Auth.submit (Scenario.signInForm "secret1", w1)) in
  users w1 !! "uid-ann" = None
  ∧ users w2 !! "uid-ann" =
      Some {[ "name" := "Ann"; "email" := "a@x.com"; "photoFileName" := "";
              "createdAt" := Scenario.stamp ]}.
Proof.
  intros w.
  assert (Hf : ∀ i, 2 ≤ i < 5 → fault i w = None).
  { intros i Hi. destruct i as [|[|[|[|[|i]]]]]; try lia; reflexivity. }
  destruct (failed_deletion_loses_the_profile ProfileAgent.en Scenario.editing
              (Scenario.signInForm "secret1") w Scenario.ann _
              "auth/requires-recent-login"
              eq_refl eq_refl eq_refl eq_refl eq_refl eq_refl eq_refl Hf)
    as (H1 & H2 & _).
  exact (conj H1 H2).
Defined.

End EndToEnd.
